(** * A shallow embedding of [src/platform/macos_tahoe/objc_wrapper.c]

    The C file is a validated boundary between application code and the
    Objective-C runtime.  Every function in it is straight-line code: pure
    checks on its arguments interleaved with calls that leave the file
    (the runtime API, [objc_msgSend], [stderr], reads through a caller
    supplied pointer, and the five routing entry points implemented by the
    application).  A function is therefore embedded as a finite tree
    ([prog]) whose nodes are those outgoing calls; the answer of each call
    selects the subtree that continues the function.  Running a tree
    against an arbitrary stateful [handler] gives the result of the
    function and the [trace] of calls it made, which is what the
    properties below are stated about.

    Embedded: the nine gateway shims, the callbacks of the window
    delegate, of the timer target and of the input view, and the three
    constructors that synthesize their classes.  The image helper
    [createNSImageFromCGImage] plays no part in the properties and is
    left out. *)

From Stdlib Require Import ZArith List String Ascii Bool Lia.
From Stdlib Require Import Floats.
Import ListNotations.

Set Implicit Arguments.

Open Scope string_scope.
Open Scope Z_scope.

(** ** Data model *)

(** [void*], [id], [Class], [SEL] and [uintptr_t] are all 64-bit words on
    the target (arm64); they are modelled as integers, [NULL] being 0. *)
Definition ptr := Z.
Definition NULL : ptr := 0.

(** [double] is IEEE-754 binary64, that is Rocq's primitive [float]. *)
Record NSPoint := { pt_x : float; pt_y : float }.
Record NSSize := { width : float; height : float }.
Record NSRect := { origin : NSPoint; size : NSSize }.

(** [(uint32_t)v]: conversion to a 32-bit unsigned integer wraps around. *)
Definition to_uint32 (v : Z) : Z := v mod 2 ^ 32.

(** The trampolines handed to [class_addMethod] as [(IMP)f]. *)
Inductive IMP :=
| IMP_windowDidResize | IMP_windowDidBecomeKey | IMP_windowDidResignKey
| IMP_tahoeTimerTick
| IMP_tahoeViewAcceptsFirstResponder
| IMP_tahoeViewMouseDown | IMP_tahoeViewMouseUp
| IMP_tahoeViewMouseDragged | IMP_tahoeViewMouseMoved
| IMP_tahoeViewKeyDown | IMP_tahoeViewKeyUp.

(** Arguments printed by [fprintf]: [%p], [%f] and [%lu]. *)
Inductive fmt_arg :=
| FmtPtr (p : ptr)
| FmtDouble (d : float)
| FmtULong (n : Z).

(** [objc_msgSend] is untyped; each call site casts it to the signature
    it needs.  A cast is recorded as the return shape and the list of the
    arguments that follow the receiver and the selector. *)
Inductive ret_shape :=
| RetId | RetVoid | RetNSRect | RetNSPoint
| RetNSInteger | RetNSUInteger | RetUShort | RetULongLong | RetCString.

Definition ret_type (r : ret_shape) : Type :=
  match r with
  | RetId => ptr
  | RetVoid => unit
  | RetNSRect => NSRect
  | RetNSPoint => NSPoint
  | RetNSInteger | RetNSUInteger | RetUShort | RetULongLong => Z
  | RetCString => ptr
  end.

Inductive arg :=
| ArgId (p : ptr)
| ArgSel (s : ptr)
| ArgCString (p : ptr)
| ArgRect (r : NSRect)
| ArgULong (n : Z)
| ArgULongLong (n : Z)
| ArgBool (b : bool)
| ArgDouble (d : float).

(** ** Calls that leave the file

    The index is the type of the answer.  Format strings are kept as the C
    literals are written in the source (escape sequences unexpanded). *)
Inductive Ext : Type -> Type :=
| fprintf_stderr (fmt : string) (args : list fmt_arg) : Ext unit
| fflush_stderr : Ext unit
| load_ptr (addr : ptr) : Ext ptr          (* *(void** )addr *)
| load_rect (addr : ptr) : Ext NSRect      (* *(NSRect* )addr *)
| load_char (addr : ptr) : Ext Z           (* ((const char* )addr)[0] *)
| objc_msgSend (r : ret_shape) (receiver sel : ptr) (args : list arg)
  : Ext (ret_type r)
| objc_getClass (name : string) : Ext ptr
| objc_allocateClassPair (super : ptr) (name : string) (extra : Z) : Ext ptr
| class_addMethod (cls sel : ptr) (imp : IMP) (types : string) : Ext bool
| objc_registerClassPair (cls : ptr) : Ext unit
| sel_registerName (name : string) : Ext ptr
| objc_getAssociatedObject (obj : ptr) (key : string) : Ext ptr
| objc_setAssociatedObject (obj : ptr) (key : string) (value : ptr)
    (policy : Z) : Ext unit
| routeMouseEvent (window_ptr kind button : Z) (x y : float) (modifiers : Z)
  : Ext unit
| routeKeyboardEvent (window_ptr kind key_code character modifiers : Z)
  : Ext unit
| routeFocusEvent (window_ptr kind : Z) : Ext unit
| routeTickCallback (window_ptr : Z) : Ext unit
| routeWindowDidResize (window_ptr : Z) (new_width new_height : float)
  : Ext unit.

(** ** Programs, runs and traces *)

Inductive prog (R : Type) : Type :=
| Ret (r : R)
| Vis (A : Type) (e : Ext A) (k : A -> prog R).

Arguments Ret {R} r.
Arguments Vis {R A} e k.

Notation "x <- e ;; k" := (Vis e (fun x => k))
  (at level 100, e at next level, right associativity).
Notation "e ;; k" := (Vis e (fun _ => k))
  (at level 100, right associativity).

(** The pattern [fprintf(stderr, ...); fflush(stderr); return r;]. *)
Definition bail {R} (fmt : string) (args : list fmt_arg) (r : R) : prog R :=
  fprintf_stderr fmt args ;; fflush_stderr ;; Ret r.

(** A call together with the answer it received. *)
Record event := Ev { ev_type : Type; ev_call : Ext ev_type; ev_answer : ev_type }.
Arguments Ev {ev_type} ev_call ev_answer.

(** The world outside the file: it answers each call and may change its
    own state while doing so. *)
Definition handler (S : Type) := forall A : Type, Ext A -> S -> A * S.

Record outcome (S R : Type) :=
  { result : R; final : S; trace : list event }.

Fixpoint run {S R : Type} (h : handler S) (p : prog R) (s : S) : outcome S R :=
  match p with
  | Ret r => {| result := r; final := s; trace := [] |}
  | Vis e k =>
      let (a, s') := h _ e s in
      let o := run h (k a) s' in
      {| result := result o; final := final o; trace := Ev e a :: trace o |}
  end.

(** [always p Q]: whatever the answers, the trace and the result of [p]
    satisfy [Q]. *)
Fixpoint always {R : Type} (p : prog R) (Q : list event -> R -> Prop) : Prop :=
  match p with
  | Ret r => Q [] r
  | Vis e k => forall a, always (k a) (fun tr r => Q (Ev e a :: tr) r)
  end.

(** ** Observations on traces *)

Definition is_msgSend (ev : event) : bool :=
  match ev_call ev with objc_msgSend _ _ _ _ => true | _ => false end.

Definition is_load (ev : event) : bool :=
  match ev_call ev with
  | load_ptr _ | load_rect _ | load_char _ => true
  | _ => false
  end.

(** The format string of a diagnostic. *)
Definition diag_of (ev : event) : option string :=
  match ev_call ev with fprintf_stderr fmt _ => Some fmt | _ => None end.

Definition is_fflush (ev : event) : bool :=
  match ev_call ev with fflush_stderr => true | _ => false end.

Definition no_msgSend (tr : list event) : bool :=
  forallb (fun ev => negb (is_msgSend ev)) tr.
Definition no_load (tr : list event) : bool :=
  forallb (fun ev => negb (is_load ev)) tr.

(** ** The validated invocation gateway *)

Definition objc_msgSend_wrapper_string (receiver selector utf8_string : ptr)
  : prog ptr :=
  if receiver =? NULL then bail "[objc_wrapper_string] NULL receiver\n" [] NULL
  else if selector =? NULL then bail "[objc_wrapper_string] NULL selector\n" [] NULL
  else if utf8_string =? NULL then bail "[objc_wrapper_string] NULL utf8_string\n" [] NULL
  else
  let receiver_addr := receiver in
  if receiver_addr <? 0x1000 then
    bail "[objc_wrapper_string] Invalid receiver address: %p\n" [FmtPtr receiver] NULL
  else if negb (receiver_addr mod 8 =? 0) then
    bail "[objc_wrapper_string] Receiver not aligned: %p\n" [FmtPtr receiver] NULL
  else
  let string_addr := utf8_string in
  if string_addr <? 0x1000 then
    bail "[objc_wrapper_string] Invalid string address: %p\n" [FmtPtr utf8_string] NULL
  else
  let receiver_id := receiver in
  r <- objc_msgSend RetId receiver_id selector [ArgCString utf8_string] ;;
  Ret r.


Definition objc_msgSend_wrapper (receiver selector : ptr) : prog ptr :=
  if receiver =? NULL then Ret NULL
  else if selector =? NULL then Ret NULL
  else
  let receiver_addr := receiver in
  if receiver_addr <? 0x1000 then Ret NULL
  else if negb (receiver_addr mod 8 =? 0) then Ret NULL
  else
  let receiver_id := receiver in
  isa_ptr <- load_ptr receiver_id ;;
  fprintf_stderr "[objc_wrapper] receiver: %p, ISA pointer: %p\n"
    [FmtPtr receiver_id; FmtPtr isa_ptr] ;;
  fflush_stderr ;;
  if isa_ptr =? NULL then Ret NULL
  else
  let isa_addr := isa_ptr in
  if isa_addr <? 0x1000 then Ret NULL
  else if negb (isa_addr mod 8 =? 0) then Ret NULL
  else if isa_addr >? 0x7fffffffffff then Ret NULL
  else
  r <- objc_msgSend RetId receiver_id selector [] ;;
  Ret r.

Definition objc_msgSend_wrapper_rect (receiver selector rect_ptr : ptr)
  : prog ptr :=
  if receiver =? NULL then bail "[objc_wrapper_rect] NULL receiver\n" [] NULL
  else if selector =? NULL then bail "[objc_wrapper_rect] NULL selector\n" [] NULL
  else if rect_ptr =? NULL then bail "[objc_wrapper_rect] NULL rect_ptr\n" [] NULL
  else
  let receiver_addr := receiver in
  if receiver_addr <? 0x1000 then
    bail "[objc_wrapper_rect] Invalid receiver address: %p\n" [FmtPtr receiver] NULL
  else if negb (receiver_addr mod 8 =? 0) then
    bail "[objc_wrapper_rect] Receiver not aligned: %p\n" [FmtPtr receiver] NULL
  else
  let rect_addr := rect_ptr in
  if rect_addr <? 0x1000 then
    bail "[objc_wrapper_rect] Invalid rect_ptr address: %p\n" [FmtPtr rect_ptr] NULL
  else if negb (rect_addr mod 8 =? 0) then
    bail "[objc_wrapper_rect] rect_ptr not aligned: %p\n" [FmtPtr rect_ptr] NULL
  else
  let receiver_id := receiver in
  rect <- load_rect rect_ptr ;;
  if (width (size rect) <? 0)%float || (height (size rect) <? 0)%float then
    bail "[objc_wrapper_rect] Invalid rect dimensions: w=%f, h=%f\n"
      [FmtDouble (width (size rect)); FmtDouble (height (size rect))] NULL
  else if (16384 <? width (size rect))%float
          || (16384 <? height (size rect))%float then
    bail "[objc_wrapper_rect] Rect dimensions too large: w=%f, h=%f\n"
      [FmtDouble (width (size rect)); FmtDouble (height (size rect))] NULL
  else
  r <- objc_msgSend RetId receiver_id selector [ArgRect rect] ;;
  Ret r.

Definition objc_msgSend_wrapper_4
  (receiver selector rect_ptr : ptr) (arg2 arg3 : Z) (arg4 : bool) : prog ptr :=
  if receiver =? NULL then bail "[objc_wrapper_4] NULL receiver\n" [] NULL
  else if selector =? NULL then bail "[objc_wrapper_4] NULL selector\n" [] NULL
  else if rect_ptr =? NULL then bail "[objc_wrapper_4] NULL rect_ptr\n" [] NULL
  else
  let receiver_addr := receiver in
  if receiver_addr <? 0x1000 then
    bail "[objc_wrapper_4] Invalid receiver address: %p\n" [FmtPtr receiver] NULL
  else if negb (receiver_addr mod 8 =? 0) then
    bail "[objc_wrapper_4] Receiver not aligned: %p\n" [FmtPtr receiver] NULL
  else
  let rect_addr := rect_ptr in
  if rect_addr <? 0x1000 then
    bail "[objc_wrapper_4] Invalid rect_ptr address: %p\n" [FmtPtr rect_ptr] NULL
  else if negb (rect_addr mod 8 =? 0) then
    bail "[objc_wrapper_4] rect_ptr not aligned: %p\n" [FmtPtr rect_ptr] NULL
  else if arg2 >? 0xFFFFFFFF then
    bail "[objc_wrapper_4] arg2 (styleMask) too large: %lu\n" [FmtULong arg2] NULL
  else if arg3 >? 0xFFFFFFFF then
    bail "[objc_wrapper_4] arg3 (backingType) too large: %lu\n" [FmtULong arg3] NULL
  else
  let receiver_id := receiver in
  rect <- load_rect rect_ptr ;;
  if (width (size rect) <? 0)%float || (height (size rect) <? 0)%float then
    bail "[objc_wrapper_4] Invalid rect dimensions: w=%f, h=%f\n"
      [FmtDouble (width (size rect)); FmtDouble (height (size rect))] NULL
  else if (16384 <? width (size rect))%float
          || (16384 <? height (size rect))%float then
    bail "[objc_wrapper_4] Rect dimensions too large: w=%f, h=%f\n"
      [FmtDouble (width (size rect)); FmtDouble (height (size rect))] NULL
  else
  r <- objc_msgSend RetId receiver_id selector
         [ArgRect rect; ArgULong arg2; ArgULong arg3; ArgBool arg4] ;;
  Ret r.

Definition objc_msgSend_void_1 (receiver selector arg1 : ptr) : prog unit :=
  if receiver =? NULL then bail "[objc_msgSend_void_1] NULL receiver\n" [] tt
  else if selector =? NULL then bail "[objc_msgSend_void_1] NULL selector\n" [] tt
  else
  let receiver_addr := receiver in
  if (receiver_addr <? 0x1000) || negb (receiver_addr mod 8 =? 0) then
    bail "[objc_msgSend_void_1] Invalid receiver: %p\n" [FmtPtr receiver] tt
  else
  let send :=
    let receiver_id := receiver in
    let arg1_id := arg1 in
    objc_msgSend RetVoid receiver_id selector [ArgId arg1_id] ;;
    Ret tt in
  if negb (arg1 =? NULL) then
    let arg1_addr := arg1 in
    if (arg1_addr <? 0x1000) || negb (arg1_addr mod 8 =? 0) then
      bail "[objc_msgSend_void_1] Invalid arg1: %p\n" [FmtPtr arg1] tt
    else send
  else send.

Definition objc_msgSend_void_0 (receiver selector : ptr) : prog unit :=
  if receiver =? NULL then bail "[objc_msgSend_void_0] NULL receiver\n" [] tt
  else if selector =? NULL then bail "[objc_msgSend_void_0] NULL selector\n" [] tt
  else
  let receiver_addr := receiver in
  if (receiver_addr <? 0x1000) || negb (receiver_addr mod 8 =? 0) then
    bail "[objc_msgSend_void_0] Invalid receiver: %p\n" [FmtPtr receiver] tt
  else
  let receiver_id := receiver in
  objc_msgSend RetVoid receiver_id selector [] ;;
  Ret tt.

Definition objc_msgSend_void_1_bool (receiver selector : ptr) (arg1 : bool)
  : prog unit :=
  if receiver =? NULL then bail "[objc_msgSend_void_1_bool] NULL receiver\n" [] tt
  else if selector =? NULL then
    bail "[objc_msgSend_void_1_bool] NULL selector\n" [] tt
  else
  let receiver_addr := receiver in
  if (receiver_addr <? 0x1000) || negb (receiver_addr mod 8 =? 0) then
    bail "[objc_msgSend_void_1_bool] Invalid receiver: %p\n" [FmtPtr receiver] tt
  else
  let receiver_id := receiver in
  objc_msgSend RetVoid receiver_id selector [ArgBool arg1] ;;
  Ret tt.

Definition objc_msgSend_wrapper_1_uint (receiver selector : ptr) (index : Z)
  : prog ptr :=
  if receiver =? NULL then
    bail "[objc_msgSend_wrapper_1_uint] NULL receiver\n" [] NULL
  else if selector =? NULL then
    bail "[objc_msgSend_wrapper_1_uint] NULL selector\n" [] NULL
  else
  let receiver_addr := receiver in
  if (receiver_addr <? 0x1000) || negb (receiver_addr mod 8 =? 0) then
    bail "[objc_msgSend_wrapper_1_uint] Invalid receiver: %p\n"
      [FmtPtr receiver] NULL
  else
  let receiver_id := receiver in
  r <- objc_msgSend RetId receiver_id selector [ArgULong index] ;;
  Ret r.

(** [NSRect empty = {{0, 0}, {0, 0}};] *)
Definition empty_rect : NSRect :=
  {| origin := {| pt_x := 0; pt_y := 0 |};
     size := {| width := 0; height := 0 |} |}.

Definition objc_msgSend_returns_NSRect (receiver selector : ptr) : prog NSRect :=
  if receiver =? NULL then
    bail "[objc_msgSend_returns_NSRect] NULL receiver\n" [] empty_rect
  else if selector =? NULL then
    bail "[objc_msgSend_returns_NSRect] NULL selector\n" [] empty_rect
  else
  let receiver_id := receiver in
  r <- objc_msgSend RetNSRect receiver_id selector [] ;;
  Ret r.


(** ** Window delegate callbacks *)

Definition windowDidResizeImpl (self _cmd notification : ptr) : prog unit :=
  if (self =? NULL) || (notification =? NULL) then
    bail "[windowDidResizeImpl] NULL self or notification\n" [] tt
  else
  window_ptr_obj <- objc_getAssociatedObject self "windowPtr" ;;
  if window_ptr_obj =? NULL then
    bail "[windowDidResizeImpl] window_ptr not found in associated objects\n" [] tt
  else
  let window_ptr := window_ptr_obj in
  if window_ptr =? 0 then bail "[windowDidResizeImpl] window_ptr is 0\n" [] tt
  else
  objectSel <- sel_registerName "object" ;;
  if objectSel =? NULL then
    bail "[windowDidResizeImpl] object selector not found\n" [] tt
  else
  ns_window <- objc_msgSend RetId notification objectSel [] ;;
  if ns_window =? NULL then
    bail "[windowDidResizeImpl] NSWindow from notification is NULL\n" [] tt
  else
  frameSel <- sel_registerName "frame" ;;
  if frameSel =? NULL then
    bail "[windowDidResizeImpl] frame selector not found\n" [] tt
  else
  frame <- objc_msgSend RetNSRect ns_window frameSel [] ;;
  contentViewSel <- sel_registerName "contentView" ;;
  if contentViewSel =? NULL then
    bail "[windowDidResizeImpl] contentView selector not found\n" [] tt
  else
  content_view <- objc_msgSend RetId ns_window contentViewSel [] ;;
  if content_view =? NULL then
    bail "[windowDidResizeImpl] contentView is NULL\n" [] tt
  else
  content_frame <- objc_msgSend RetNSRect content_view frameSel [] ;;
  routeWindowDidResize window_ptr (width (size content_frame))
    (height (size content_frame)) ;;
  Ret tt.

Definition windowDidBecomeKeyImpl (self _cmd notification : ptr) : prog unit :=
  if self =? NULL then bail "[windowDidBecomeKeyImpl] NULL self\n" [] tt
  else
  window_ptr_obj <- objc_getAssociatedObject self "windowPtr" ;;
  if window_ptr_obj =? NULL then
    bail "[windowDidBecomeKeyImpl] window_ptr not found\n" [] tt
  else
  let window_ptr := window_ptr_obj in
  if window_ptr =? 0 then bail "[windowDidBecomeKeyImpl] window_ptr is 0\n" [] tt
  else
  (* Route to Zig: kind=0 (gained). *)
  routeFocusEvent window_ptr 0 ;;
  Ret tt.

Definition windowDidResignKeyImpl (self _cmd notification : ptr) : prog unit :=
  if self =? NULL then bail "[windowDidResignKeyImpl] NULL self\n" [] tt
  else
  window_ptr_obj <- objc_getAssociatedObject self "windowPtr" ;;
  if window_ptr_obj =? NULL then
    bail "[windowDidResignKeyImpl] window_ptr not found\n" [] tt
  else
  let window_ptr := window_ptr_obj in
  if window_ptr =? 0 then bail "[windowDidResignKeyImpl] window_ptr is 0\n" [] tt
  else
  (* Route to Zig: kind=1 (lost). *)
  routeFocusEvent window_ptr 1 ;;
  Ret tt.

(** ** Window delegate synthesis *)

Definition OBJC_ASSOCIATION_ASSIGN : Z := 0.

(** The statements of [createWindowDelegate] that follow the lookup-or-create block, once
    [delegateClass] is known. *)
Definition createWindowDelegate_instance (window_ptr : Z) (delegateClass : ptr) : prog ptr :=
  allocSel <- sel_registerName "alloc" ;;
  if allocSel =? NULL then bail "[createWindowDelegate] alloc selector not found\n" [] NULL
  else
  delegate <- objc_msgSend RetId delegateClass allocSel [] ;;
  if delegate =? NULL then bail "[createWindowDelegate] Failed to allocate delegate\n" [] NULL
  else
  initSel <- sel_registerName "init" ;;
  if initSel =? NULL then bail "[createWindowDelegate] init selector not found\n" [] NULL
  else
  initializedDelegate <- objc_msgSend RetId delegate initSel [] ;;
  if initializedDelegate =? NULL then bail "[createWindowDelegate] Failed to initialize delegate\n" [] NULL
  else
  let window_ptr_obj := window_ptr in
  objc_setAssociatedObject initializedDelegate "windowPtr" window_ptr_obj
    OBJC_ASSOCIATION_ASSIGN ;;
  fprintf_stderr "[createWindowDelegate] Created window delegate instance at: %p\n" [FmtPtr initializedDelegate] ;;
  fflush_stderr ;;
  Ret initializedDelegate.

Definition createWindowDelegate (window_ptr : Z) : prog ptr :=
  if window_ptr =? 0 then bail "[createWindowDelegate] NULL window_ptr\n" [] NULL
  else
  let delegateClassName := "TahoeWindowDelegate" in
  delegateClass <- objc_getClass delegateClassName ;;
  if delegateClass =? NULL then
  NSObjectClass <- objc_getClass "NSObject" ;;
  if NSObjectClass =? NULL then
    bail "[createWindowDelegate] NSObject class not found\n" [] NULL
  else
  delegateClass <- objc_allocateClassPair NSObjectClass delegateClassName 0 ;;
  if delegateClass =? NULL then
    bail "[createWindowDelegate] Failed to allocate delegate class\n" [] NULL
  else
  let methodTypes := "v@:@" in
  resizeSel <- sel_registerName "windowDidResize:" ;;
  if resizeSel =? NULL then
    bail "[createWindowDelegate] Failed to register windowDidResize: selector\n" [] NULL
  else
  methodAdded <- class_addMethod delegateClass resizeSel IMP_windowDidResize methodTypes ;;
  if negb methodAdded then
    bail "[createWindowDelegate] Failed to add windowDidResize: method\n" [] NULL
  else
  becomeKeySel <- sel_registerName "windowDidBecomeKey:" ;;
  if becomeKeySel =? NULL then
    bail "[createWindowDelegate] Failed to register windowDidBecomeKey: selector\n" [] NULL
  else
  becomeKeyAdded <- class_addMethod delegateClass becomeKeySel IMP_windowDidBecomeKey methodTypes ;;
  if negb becomeKeyAdded then
    bail "[createWindowDelegate] Failed to add windowDidBecomeKey: method\n" [] NULL
  else
  resignKeySel <- sel_registerName "windowDidResignKey:" ;;
  if resignKeySel =? NULL then
    bail "[createWindowDelegate] Failed to register windowDidResignKey: selector\n" [] NULL
  else
  resignKeyAdded <- class_addMethod delegateClass resignKeySel IMP_windowDidResignKey methodTypes ;;
  if negb resignKeyAdded then
    bail "[createWindowDelegate] Failed to add windowDidResignKey: method\n" [] NULL
  else
  objc_registerClassPair delegateClass ;;
  fprintf_stderr "[createWindowDelegate] Created TahoeWindowDelegate class\n" [] ;;
  fflush_stderr ;;
  createWindowDelegate_instance window_ptr delegateClass
  else createWindowDelegate_instance window_ptr delegateClass.

(** ** Animation timer *)

Definition tahoeTimerTickImpl (self _cmd timer : ptr) : prog unit :=
  if (self =? NULL) || (timer =? NULL) then
    bail "[tahoeTimerTickImpl] NULL self or timer\n" [] tt
  else
  userInfoSel <- sel_registerName "userInfo" ;;
  if userInfoSel =? NULL then
    bail "[tahoeTimerTickImpl] userInfo selector not found\n" [] tt
  else
  userInfo <- objc_msgSend RetId timer userInfoSel [] ;;
  if userInfo =? NULL then
    bail "[tahoeTimerTickImpl] Timer userInfo is NULL\n" [] tt
  else
  unsignedLongLongValueSel <- sel_registerName "unsignedLongLongValue" ;;
  if unsignedLongLongValueSel =? NULL then
    bail "[tahoeTimerTickImpl] unsignedLongLongValue selector not found\n" [] tt
  else
  window_ptr <- objc_msgSend RetULongLong userInfo unsignedLongLongValueSel [] ;;
  if window_ptr =? 0 then bail "[tahoeTimerTickImpl] window_ptr is 0\n" [] tt
  else
  routeTickCallback window_ptr ;;
  Ret tt.

(** The statements of [createAnimationTimer] that follow the
    lookup-or-create block, once [timerTargetClass] is known. *)
Definition createAnimationTimer_instance
  (window_ptr : Z) (interval : float) (timerTargetClass : ptr) : prog ptr :=
  allocSel <- sel_registerName "alloc" ;;
  if allocSel =? NULL then
    bail "[createAnimationTimer] alloc selector not found\n" [] NULL
  else
  timerTarget <- objc_msgSend RetId timerTargetClass allocSel [] ;;
  if timerTarget =? NULL then
    bail "[createAnimationTimer] Failed to allocate timer target\n" [] NULL
  else
  initSel <- sel_registerName "init" ;;
  if initSel =? NULL then
    bail "[createAnimationTimer] init selector not found\n" [] NULL
  else
  initializedTarget <- objc_msgSend RetId timerTarget initSel [] ;;
  if initializedTarget =? NULL then
    bail "[createAnimationTimer] Failed to initialize timer target\n" [] NULL
  else
  let window_ptr_obj := window_ptr in
  objc_setAssociatedObject initializedTarget "windowPtr" window_ptr_obj
    OBJC_ASSOCIATION_ASSIGN ;;
  NSNumberClass <- objc_getClass "NSNumber" ;;
  if NSNumberClass =? NULL then
    bail "[createAnimationTimer] NSNumber class not found\n" [] NULL
  else
  numberWithUnsignedLongLongSel <- sel_registerName "numberWithUnsignedLongLong:" ;;
  if numberWithUnsignedLongLongSel =? NULL then
    bail "[createAnimationTimer] numberWithUnsignedLongLong: selector not found\n"
      [] NULL
  else
  userInfo <- objc_msgSend RetId NSNumberClass numberWithUnsignedLongLongSel
                [ArgULongLong window_ptr] ;;
  if userInfo =? NULL then
    bail "[createAnimationTimer] Failed to create NSNumber for userInfo\n" [] NULL
  else
  tickSel <- sel_registerName "tahoeTimerTick:" ;;
  if tickSel =? NULL then
    bail "[createAnimationTimer] Failed to register tick selector\n" [] NULL
  else
  let methodTypes := "v@:@" in
  methodAdded <- class_addMethod timerTargetClass tickSel IMP_tahoeTimerTick
                   methodTypes ;;
  (* the statements that follow the [if (!methodAdded) ... else ...] *)
  let schedule : prog ptr :=
    scheduledTimerSel <- sel_registerName
      "scheduledTimerWithTimeInterval:target:selector:userInfo:repeats:" ;;
    if scheduledTimerSel =? NULL then
      bail "[createAnimationTimer] scheduledTimerWithTimeInterval:target:selector:userInfo:repeats: selector not found\n"
        [] NULL
    else
    NSTimerClass <- objc_getClass "NSTimer" ;;
    if NSTimerClass =? NULL then
      bail "[createAnimationTimer] NSTimer class not found\n" [] NULL
    else
    timer <- objc_msgSend RetId NSTimerClass scheduledTimerSel
               [ArgDouble interval; ArgId initializedTarget; ArgSel tickSel;
                ArgId userInfo; ArgBool true] ;;
    if timer =? NULL then
      bail "[createAnimationTimer] Failed to create NSTimer\n" [] NULL
    else
    fprintf_stderr "[createAnimationTimer] Created NSTimer successfully at: %p\n"
      [FmtPtr timer] ;;
    fflush_stderr ;;
    Ret timer in
  if negb methodAdded then
    fprintf_stderr
      "[createAnimationTimer] Method tahoeTimerTick: already exists or failed to add (continuing)\n"
      [] ;;
    fflush_stderr ;;
    schedule
  else
    fprintf_stderr
      "[createAnimationTimer] Added tahoeTimerTick: method to TahoeTimerTarget class\n"
      [] ;;
    fflush_stderr ;;
    schedule.

Definition createAnimationTimer (window_ptr : Z) (interval : float) : prog ptr :=
  if window_ptr =? 0 then bail "[createAnimationTimer] NULL window_ptr\n" [] NULL
  else
  if (interval <=? 0)%float || (1 <? interval)%float then
    bail "[createAnimationTimer] Invalid interval: %f (expected 0 < interval <= 1.0)\n"
      [FmtDouble interval] NULL
  else
  let timerTargetClassName := "TahoeTimerTarget" in
  timerTargetClass <- objc_getClass timerTargetClassName ;;
  if timerTargetClass =? NULL then
  NSObjectClass <- objc_getClass "NSObject" ;;
  if NSObjectClass =? NULL then
    bail "[createAnimationTimer] NSObject class not found\n" [] NULL
  else
  timerTargetClass <- objc_allocateClassPair NSObjectClass timerTargetClassName 0 ;;
  if timerTargetClass =? NULL then
    bail "[createAnimationTimer] Failed to allocate timer target class\n" [] NULL
  else
  objc_registerClassPair timerTargetClass ;;
  fprintf_stderr "[createAnimationTimer] Created TahoeTimerTarget class\n" [] ;;
  fflush_stderr ;;
  createAnimationTimer_instance window_ptr interval timerTargetClass
  else createAnimationTimer_instance window_ptr interval timerTargetClass.

(** ** Input view callbacks *)

Definition tahoeViewMouseDownImpl (self _cmd event : ptr) : prog unit :=
  if (self =? NULL) || (event =? NULL) then
    bail "[tahoeViewMouseDownImpl] NULL self or event\n" [] tt
  else
  window_ptr_obj <- objc_getAssociatedObject self "windowPtr" ;;
  if window_ptr_obj =? NULL then
    bail "[tahoeViewMouseDownImpl] window_ptr not found\n" [] tt
  else
  let window_ptr := window_ptr_obj in
  if window_ptr =? 0 then bail "[tahoeViewMouseDownImpl] window_ptr is 0\n" [] tt
  else
  locationSel <- sel_registerName "locationInWindow" ;;
  if locationSel =? NULL then
    bail "[tahoeViewMouseDownImpl] locationInWindow selector not found\n" [] tt
  else
  location <- objc_msgSend RetNSPoint event locationSel [] ;;
  buttonNumberSel <- sel_registerName "buttonNumber" ;;
  if buttonNumberSel =? NULL then
    bail "[tahoeViewMouseDownImpl] buttonNumber selector not found\n" [] tt
  else
  button_num <- objc_msgSend RetNSInteger event buttonNumberSel [] ;;
  let button :=
    if (button_num <? 0) || (button_num >? 2) then 3 else to_uint32 button_num in
  modifierFlagsSel <- sel_registerName "modifierFlags" ;;
  if modifierFlagsSel =? NULL then
    bail "[tahoeViewMouseDownImpl] modifierFlags selector not found\n" [] tt
  else
  modifiers <- objc_msgSend RetNSUInteger event modifierFlagsSel [] ;;
  (* Route to Zig: kind=0 (down), button, x, y, modifiers. *)
  routeMouseEvent window_ptr 0 button (pt_x location) (pt_y location)
    (to_uint32 modifiers) ;;
  Ret tt.

Definition tahoeViewMouseUpImpl (self _cmd event : ptr) : prog unit :=
  if (self =? NULL) || (event =? NULL) then
    bail "[tahoeViewMouseUpImpl] NULL self or event\n" [] tt
  else
  window_ptr_obj <- objc_getAssociatedObject self "windowPtr" ;;
  if window_ptr_obj =? NULL then
    bail "[tahoeViewMouseUpImpl] window_ptr not found\n" [] tt
  else
  let window_ptr := window_ptr_obj in
  if window_ptr =? 0 then bail "[tahoeViewMouseUpImpl] window_ptr is 0\n" [] tt
  else
  locationSel <- sel_registerName "locationInWindow" ;;
  if locationSel =? NULL then
    bail "[tahoeViewMouseUpImpl] locationInWindow selector not found\n" [] tt
  else
  location <- objc_msgSend RetNSPoint event locationSel [] ;;
  buttonNumberSel <- sel_registerName "buttonNumber" ;;
  if buttonNumberSel =? NULL then
    bail "[tahoeViewMouseUpImpl] buttonNumber selector not found\n" [] tt
  else
  button_num <- objc_msgSend RetNSInteger event buttonNumberSel [] ;;
  let button :=
    if (button_num <? 0) || (button_num >? 2) then 3 else to_uint32 button_num in
  modifierFlagsSel <- sel_registerName "modifierFlags" ;;
  if modifierFlagsSel =? NULL then
    bail "[tahoeViewMouseUpImpl] modifierFlags selector not found\n" [] tt
  else
  modifiers <- objc_msgSend RetNSUInteger event modifierFlagsSel [] ;;
  (* Route to Zig: kind=1 (up), button, x, y, modifiers. *)
  routeMouseEvent window_ptr 1 button (pt_x location) (pt_y location)
    (to_uint32 modifiers) ;;
  Ret tt.

Definition tahoeViewMouseDraggedImpl (self _cmd event : ptr) : prog unit :=
  if (self =? NULL) || (event =? NULL) then
    bail "[tahoeViewMouseDraggedImpl] NULL self or event\n" [] tt
  else
  window_ptr_obj <- objc_getAssociatedObject self "windowPtr" ;;
  if window_ptr_obj =? NULL then
    bail "[tahoeViewMouseDraggedImpl] window_ptr not found\n" [] tt
  else
  let window_ptr := window_ptr_obj in
  if window_ptr =? 0 then bail "[tahoeViewMouseDraggedImpl] window_ptr is 0\n" [] tt
  else
  locationSel <- sel_registerName "locationInWindow" ;;
  if locationSel =? NULL then
    bail "[tahoeViewMouseDraggedImpl] locationInWindow selector not found\n" [] tt
  else
  location <- objc_msgSend RetNSPoint event locationSel [] ;;
  buttonNumberSel <- sel_registerName "buttonNumber" ;;
  if buttonNumberSel =? NULL then
    bail "[tahoeViewMouseDraggedImpl] buttonNumber selector not found\n" [] tt
  else
  button_num <- objc_msgSend RetNSInteger event buttonNumberSel [] ;;
  let button :=
    if (button_num <? 0) || (button_num >? 2) then 3 else to_uint32 button_num in
  modifierFlagsSel <- sel_registerName "modifierFlags" ;;
  if modifierFlagsSel =? NULL then
    bail "[tahoeViewMouseDraggedImpl] modifierFlags selector not found\n" [] tt
  else
  modifiers <- objc_msgSend RetNSUInteger event modifierFlagsSel [] ;;
  (* Route to Zig: kind=3 (drag), button, x, y, modifiers. *)
  routeMouseEvent window_ptr 3 button (pt_x location) (pt_y location)
    (to_uint32 modifiers) ;;
  Ret tt.

Definition tahoeViewMouseMovedImpl (self _cmd event : ptr) : prog unit :=
  if (self =? NULL) || (event =? NULL) then
    bail "[tahoeViewMouseMovedImpl] NULL self or event\n" [] tt
  else
  window_ptr_obj <- objc_getAssociatedObject self "windowPtr" ;;
  if window_ptr_obj =? NULL then
    bail "[tahoeViewMouseMovedImpl] window_ptr not found\n" [] tt
  else
  let window_ptr := window_ptr_obj in
  if window_ptr =? 0 then bail "[tahoeViewMouseMovedImpl] window_ptr is 0\n" [] tt
  else
  locationSel <- sel_registerName "locationInWindow" ;;
  if locationSel =? NULL then
    bail "[tahoeViewMouseMovedImpl] locationInWindow selector not found\n" [] tt
  else
  location <- objc_msgSend RetNSPoint event locationSel [] ;;
  modifierFlagsSel <- sel_registerName "modifierFlags" ;;
  if modifierFlagsSel =? NULL then
    bail "[tahoeViewMouseMovedImpl] modifierFlags selector not found\n" [] tt
  else
  modifiers <- objc_msgSend RetNSUInteger event modifierFlagsSel [] ;;
  (* Route to Zig: kind=2 (move), button=0 (no button), x, y, modifiers. *)
  routeMouseEvent window_ptr 2 0 (pt_x location) (pt_y location)
    (to_uint32 modifiers) ;;
  Ret tt.

Definition tahoeViewKeyDownImpl (self _cmd event : ptr) : prog unit :=
  if (self =? NULL) || (event =? NULL) then
    bail "[tahoeViewKeyDownImpl] NULL self or event\n" [] tt
  else
  window_ptr_obj <- objc_getAssociatedObject self "windowPtr" ;;
  if window_ptr_obj =? NULL then
    bail "[tahoeViewKeyDownImpl] window_ptr not found\n" [] tt
  else
  let window_ptr := window_ptr_obj in
  if window_ptr =? 0 then bail "[tahoeViewKeyDownImpl] window_ptr is 0\n" [] tt
  else
  keyCodeSel <- sel_registerName "keyCode" ;;
  if keyCodeSel =? NULL then
    bail "[tahoeViewKeyDownImpl] keyCode selector not found\n" [] tt
  else
  key_code <- objc_msgSend RetUShort event keyCodeSel [] ;;
  charactersSel <- sel_registerName "characters" ;;
  if charactersSel =? NULL then
    bail "[tahoeViewKeyDownImpl] characters selector not found\n" [] tt
  else
  characters_str <- objc_msgSend RetId event charactersSel [] ;;
  (* the statements that follow the computation of [character] *)
  let rest (character : Z) : prog unit :=
    modifierFlagsSel <- sel_registerName "modifierFlags" ;;
    if modifierFlagsSel =? NULL then
      bail "[tahoeViewKeyDownImpl] modifierFlags selector not found\n" [] tt
    else
    modifiers <- objc_msgSend RetNSUInteger event modifierFlagsSel [] ;;
    routeKeyboardEvent window_ptr 0 (to_uint32 key_code) character
      (to_uint32 modifiers) ;;
    Ret tt in
  if negb (characters_str =? NULL) then
    utf8StringSel <- sel_registerName "UTF8String" ;;
    if negb (utf8StringSel =? NULL) then
      utf8 <- objc_msgSend RetCString characters_str utf8StringSel [] ;;
      if negb (utf8 =? NULL) then
        c <- load_char utf8 ;;
        if negb (c =? 0) then rest (to_uint32 c) else rest 0
      else rest 0
    else rest 0
  else rest 0.

Definition tahoeViewKeyUpImpl (self _cmd event : ptr) : prog unit :=
  if (self =? NULL) || (event =? NULL) then
    bail "[tahoeViewKeyUpImpl] NULL self or event\n" [] tt
  else
  window_ptr_obj <- objc_getAssociatedObject self "windowPtr" ;;
  if window_ptr_obj =? NULL then
    bail "[tahoeViewKeyUpImpl] window_ptr not found\n" [] tt
  else
  let window_ptr := window_ptr_obj in
  if window_ptr =? 0 then bail "[tahoeViewKeyUpImpl] window_ptr is 0\n" [] tt
  else
  keyCodeSel <- sel_registerName "keyCode" ;;
  if keyCodeSel =? NULL then
    bail "[tahoeViewKeyUpImpl] keyCode selector not found\n" [] tt
  else
  key_code <- objc_msgSend RetUShort event keyCodeSel [] ;;
  charactersSel <- sel_registerName "characters" ;;
  if charactersSel =? NULL then
    bail "[tahoeViewKeyUpImpl] characters selector not found\n" [] tt
  else
  characters_str <- objc_msgSend RetId event charactersSel [] ;;
  (* the statements that follow the computation of [character] *)
  let rest (character : Z) : prog unit :=
    modifierFlagsSel <- sel_registerName "modifierFlags" ;;
    if modifierFlagsSel =? NULL then
      bail "[tahoeViewKeyUpImpl] modifierFlags selector not found\n" [] tt
    else
    modifiers <- objc_msgSend RetNSUInteger event modifierFlagsSel [] ;;
    routeKeyboardEvent window_ptr 1 (to_uint32 key_code) character
      (to_uint32 modifiers) ;;
    Ret tt in
  if negb (characters_str =? NULL) then
    utf8StringSel <- sel_registerName "UTF8String" ;;
    if negb (utf8StringSel =? NULL) then
      utf8 <- objc_msgSend RetCString characters_str utf8StringSel [] ;;
      if negb (utf8 =? NULL) then
        c <- load_char utf8 ;;
        if negb (c =? 0) then rest (to_uint32 c) else rest 0
      else rest 0
    else rest 0
  else rest 0.

Definition tahoeViewAcceptsFirstResponderImpl (self _cmd : ptr) : prog bool :=
  if self =? NULL then
    bail "[tahoeViewAcceptsFirstResponderImpl] NULL self\n" [] false
  else Ret true.

(** ** Input view synthesis *)

(** The statements of [createTahoeView] that follow the lookup-or-create block, once
    [viewClass] is known. *)
Definition createTahoeView_instance (window_ptr : Z) (viewClass : ptr) : prog ptr :=
  allocSel <- sel_registerName "alloc" ;;
  if allocSel =? NULL then bail "[createTahoeView] alloc selector not found\n" [] NULL
  else
  view <- objc_msgSend RetId viewClass allocSel [] ;;
  if view =? NULL then bail "[createTahoeView] Failed to allocate view\n" [] NULL
  else
  initSel <- sel_registerName "init" ;;
  if initSel =? NULL then bail "[createTahoeView] init selector not found\n" [] NULL
  else
  initializedView <- objc_msgSend RetId view initSel [] ;;
  if initializedView =? NULL then bail "[createTahoeView] Failed to initialize view\n" [] NULL
  else
  let window_ptr_obj := window_ptr in
  objc_setAssociatedObject initializedView "windowPtr" window_ptr_obj
    OBJC_ASSOCIATION_ASSIGN ;;
  fprintf_stderr "[createTahoeView] Created TahoeView instance at: %p\n" [FmtPtr initializedView] ;;
  fflush_stderr ;;
  Ret initializedView.

Definition createTahoeView (window_ptr : Z) : prog ptr :=
  if window_ptr =? 0 then bail "[createTahoeView] NULL window_ptr\n" [] NULL
  else
  let viewClassName := "TahoeView" in
  viewClass <- objc_getClass viewClassName ;;
  if viewClass =? NULL then
  NSViewClass <- objc_getClass "NSView" ;;
  if NSViewClass =? NULL then
    bail "[createTahoeView] NSView class not found\n" [] NULL
  else
  viewClass <- objc_allocateClassPair NSViewClass viewClassName 0 ;;
  if viewClass =? NULL then
    bail "[createTahoeView] Failed to allocate view class\n" [] NULL
  else
  let acceptsTypes := "c@:" in
  acceptsSel <- sel_registerName "acceptsFirstResponder" ;;
  if acceptsSel =? NULL then
    bail "[createTahoeView] Failed to register acceptsFirstResponder selector\n" [] NULL
  else
  acceptsAdded <- class_addMethod viewClass acceptsSel IMP_tahoeViewAcceptsFirstResponder acceptsTypes ;;
  if negb acceptsAdded then
    bail "[createTahoeView] Failed to add acceptsFirstResponder method\n" [] NULL
  else
  let mouseTypes := "v@:@" in
  mouseDownSel <- sel_registerName "mouseDown:" ;;
  if mouseDownSel =? NULL then
    bail "[createTahoeView] Failed to register mouseDown: selector\n" [] NULL
  else
  mouseDownAdded <- class_addMethod viewClass mouseDownSel IMP_tahoeViewMouseDown mouseTypes ;;
  if negb mouseDownAdded then
    bail "[createTahoeView] Failed to add mouseDown: method\n" [] NULL
  else
  mouseUpSel <- sel_registerName "mouseUp:" ;;
  if mouseUpSel =? NULL then
    bail "[createTahoeView] Failed to register mouseUp: selector\n" [] NULL
  else
  mouseUpAdded <- class_addMethod viewClass mouseUpSel IMP_tahoeViewMouseUp mouseTypes ;;
  if negb mouseUpAdded then
    bail "[createTahoeView] Failed to add mouseUp: method\n" [] NULL
  else
  mouseDraggedSel <- sel_registerName "mouseDragged:" ;;
  if mouseDraggedSel =? NULL then
    bail "[createTahoeView] Failed to register mouseDragged: selector\n" [] NULL
  else
  mouseDraggedAdded <- class_addMethod viewClass mouseDraggedSel IMP_tahoeViewMouseDragged mouseTypes ;;
  if negb mouseDraggedAdded then
    bail "[createTahoeView] Failed to add mouseDragged: method\n" [] NULL
  else
  mouseMovedSel <- sel_registerName "mouseMoved:" ;;
  if mouseMovedSel =? NULL then
    bail "[createTahoeView] Failed to register mouseMoved: selector\n" [] NULL
  else
  mouseMovedAdded <- class_addMethod viewClass mouseMovedSel IMP_tahoeViewMouseMoved mouseTypes ;;
  if negb mouseMovedAdded then
    bail "[createTahoeView] Failed to add mouseMoved: method\n" [] NULL
  else
  keyDownSel <- sel_registerName "keyDown:" ;;
  if keyDownSel =? NULL then
    bail "[createTahoeView] Failed to register keyDown: selector\n" [] NULL
  else
  keyDownAdded <- class_addMethod viewClass keyDownSel IMP_tahoeViewKeyDown mouseTypes ;;
  if negb keyDownAdded then
    bail "[createTahoeView] Failed to add keyDown: method\n" [] NULL
  else
  keyUpSel <- sel_registerName "keyUp:" ;;
  if keyUpSel =? NULL then
    bail "[createTahoeView] Failed to register keyUp: selector\n" [] NULL
  else
  keyUpAdded <- class_addMethod viewClass keyUpSel IMP_tahoeViewKeyUp mouseTypes ;;
  if negb keyUpAdded then
    bail "[createTahoeView] Failed to add keyUp: method\n" [] NULL
  else
  objc_registerClassPair viewClass ;;
  fprintf_stderr "[createTahoeView] Created TahoeView class\n" [] ;;
  fflush_stderr ;;
  createTahoeView_instance window_ptr viewClass
  else createTahoeView_instance window_ptr viewClass.

(** ** Further observations on traces *)

Definition is_stderr (ev : event) : bool :=
  match ev_call ev with
  | fprintf_stderr _ _ | fflush_stderr => true
  | _ => false
  end.

(** Calls of the five routing entry points. *)
Definition is_route (ev : event) : bool :=
  match ev_call ev with
  | routeMouseEvent _ _ _ _ _ _ | routeKeyboardEvent _ _ _ _ _
  | routeFocusEvent _ _ | routeTickCallback _ | routeWindowDidResize _ _ _ => true
  | _ => false
  end.

Definition routes (tr : list event) : list event := filter is_route tr.

Definition is_register (ev : event) : bool :=
  match ev_call ev with objc_registerClassPair _ => true | _ => false end.
Definition is_getAssociated (ev : event) : bool :=
  match ev_call ev with objc_getAssociatedObject _ _ => true | _ => false end.




(** The answer to [objc_getAssociatedObject self "windowPtr"], when [ev]
    is that call. *)
Definition token_answer (self : ptr) (ev : event) : option ptr :=
  match ev with
  | Ev e a =>
      match e in Ext T return T -> option ptr with
      | objc_getAssociatedObject obj key =>
          fun t => if (obj =? self) && String.eqb key "windowPtr"
                   then Some t else None
      | _ => fun _ => None
      end a
  end.

(** The token a callback on [self] starts from: the answer of the store,
    when the first call of the trace is the query of the store. *)
Definition token_query (self : ptr) (tr : list event) : option ptr :=
  match tr with
  | ev :: _ => token_answer self ev
  | [] => None
  end.

(** [sel_registerName] answered [NULL]. *)
Definition selector_unresolved (ev : event) : bool :=
  match ev with
  | Ev e a =>
      match e in Ext T return T -> bool with
      | sel_registerName _ => fun p => p =? NULL
      | _ => fun _ => false
      end a
  end.

(** [class_addMethod] answered [NO]. *)
Definition install_refused (ev : event) : bool :=
  match ev with
  | Ev e a =>
      match e in Ext T return T -> bool with
      | class_addMethod _ _ _ _ => fun ok => negb ok
      | _ => fun _ => false
      end a
  end.

Definition install_failed (ev : event) : bool :=
  selector_unresolved ev || install_refused ev.

(** The three classes this file creates on first use. *)
Definition synthesized (name : string) : bool :=
  String.eqb name "TahoeWindowDelegate" || String.eqb name "TahoeTimerTarget"
  || String.eqb name "TahoeView".

(** The runtime did not deliver what the code asked for: a selector, a
    class that must already exist, a class pair, an object or an
    associated object came back [NULL]. *)
Definition failed_step (ev : event) : bool :=
  match ev with
  | Ev e a =>
      match e in Ext T return T -> bool with
      | sel_registerName _ => fun p => p =? NULL
      | objc_getAssociatedObject _ _ => fun p => p =? NULL
      | objc_allocateClassPair _ _ _ => fun p => p =? NULL
      | objc_getClass name => fun p => (p =? NULL) && negb (synthesized name)
      | objc_msgSend r _ _ _ =>
          match r return ret_type r -> bool with
          | RetId => fun p => p =? NULL
          | _ => fun _ => false
          end
      | _ => fun _ => false
      end a
  end.

Definition no_failed_step (tr : list event) : bool :=
  forallb (fun ev => negb (failed_step ev)) tr.

(** The trace ends with a diagnostic whose text starts with [tag],
    followed at once by the flush of [stderr]. *)
Fixpoint diagnosed_by (tag : string) (tr : list event) : bool :=
  match tr with
  | [] => false
  | ev :: tr' =>
      match tr' with
      | [ev'] =>
          match diag_of ev with
          | Some fmt => String.prefix tag fmt && is_fflush ev'
          | None => false
          end
      | _ => diagnosed_by tag tr'
      end
  end.

(** The trace ends with a call satisfying [P], the diagnostic and the
    flush: nothing else happens after that call. *)
Fixpoint aborts_after (P : event -> bool) (tr : list event) : bool :=
  match tr with
  | [] => false
  | ev :: tr' =>
      match tr' with
      | [d; f] =>
          P ev && match diag_of d with Some _ => true | None => false end
          && is_fflush f
      | _ => aborts_after P tr'
      end
  end.

(** ** Words of the specification *)

(** A handle is invalid when it is null, below the floor [0x1000] or not
    a multiple of 8. *)
Definition invalid_handle (p : ptr) : Prop :=
  p = NULL \/ p < 0x1000 \/ p mod 8 <> 0.

(** A rectangle whose width or height is negative or exceeds 16384. *)
Definition bad_dimensions (r : NSRect) : Prop :=
  (width (size r) <? 0)%float = true \/ (height (size r) <? 0)%float = true
  \/ (16384 <? width (size r))%float = true
  \/ (16384 <? height (size r))%float = true.



(** The outcome of a rejected gateway call: the sentinel is returned, the
    foreign call is skipped and nothing is read through a pointer. *)
Definition rejected {S R : Type} (sentinel : R) (o : outcome S R) : Prop :=
  result o = sentinel /\ no_msgSend (trace o) = true /\ no_load (trace o) = true.

(** A pointer callback [f] routes events of kind [kind]: whatever it
    routes is a pointer event of that kind with a button in 0..3; and on
    an instance and an event that are not null, when no step fails, it
    routes exactly one such event, whose button is the ordinal reported by
    the native event when that lies in 0..2 and 3 otherwise. *)
Definition routes_pointer_event (kind : Z)
  (f : ptr -> ptr -> ptr -> prog unit) : Prop :=
  forall (S : Type) (h : handler S) (s : S) (self _cmd event : ptr),
    let tr := trace (run h (f self _cmd event) s) in
    (forall ev, In ev (routes tr) ->
       exists window_ptr button x y modifiers,
         ev = Ev (routeMouseEvent window_ptr kind button x y modifiers) tt
         /\ 0 <= button <= 3)
    /\ (self <> NULL -> event <> NULL -> no_failed_step tr = true ->
        exists token location buttonNumberSel button_num modifiers button,
          In (Ev (objc_msgSend RetNSInteger event buttonNumberSel [])
                button_num) tr
          /\ routes tr
             = [Ev (routeMouseEvent token kind button (pt_x location)
                      (pt_y location) (to_uint32 modifiers)) tt]
          /\ (0 <= button_num <= 2 -> button = button_num)
          /\ (button_num < 0 \/ button_num > 2 -> button = 3)).

(** The move callback routes events of kind 2 with button 0. *)
Definition routes_pointer_move (f : ptr -> ptr -> ptr -> prog unit) : Prop :=
  forall (S : Type) (h : handler S) (s : S) (self _cmd event : ptr),
    let tr := trace (run h (f self _cmd event) s) in
    (forall ev, In ev (routes tr) ->
       exists window_ptr x y modifiers,
         ev = Ev (routeMouseEvent window_ptr 2 0 x y modifiers) tt)
    /\ (self <> NULL -> event <> NULL -> no_failed_step tr = true ->
        exists token location modifiers,
          routes tr
          = [Ev (routeMouseEvent token 2 0 (pt_x location) (pt_y location)
                   (to_uint32 modifiers)) tt]).

(** The token passed to a routing entry point. *)
Definition route_token (ev : event) : option Z :=
  match ev_call ev with
  | routeMouseEvent w _ _ _ _ _ | routeKeyboardEvent w _ _ _ _
  | routeFocusEvent w _ | routeTickCallback w | routeWindowDidResize w _ _ =>
      Some w
  | _ => None
  end.

(** The answer to a message send cast to return [unsigned long long]. *)
Definition ull_answer (ev : event) : option Z :=
  match ev with
  | Ev e a =>
      match e in Ext T return T -> option Z with
      | objc_msgSend r _ _ _ =>
          match r return ret_type r -> option Z with
          | RetULongLong => fun v => Some v
          | _ => fun _ => None
          end
      | _ => fun _ => None
      end a
  end.

Definition ull_answers (tr : list event) : list Z :=
  flat_map (fun ev => match ull_answer ev with
                      | Some v => [v]
                      | None => []
                      end) tr.

(** A callback [f] is guarded by the token of the associated-state store:
    it either stops at once on a null argument, with its diagnostic, or
    starts by reading the token stored on [self]; when the store answers
    null it stops there with its diagnostic and routes nothing; and
    whatever it routes carries the token the store answered, which is
    not zero. *)
Definition token_guarded (tag : string)
  (f : ptr -> ptr -> ptr -> prog unit) : Prop :=
  forall (S : Type) (h : handler S) (s : S) (self _cmd arg : ptr),
    let tr := trace (run h (f self _cmd arg) s) in
    (forallb is_stderr tr = true /\ diagnosed_by tag tr = true
     \/ exists token, token_query self tr = Some token)
    /\ (token_query self tr = Some NULL ->
        routes tr = [] /\ diagnosed_by tag tr = true
        /\ List.length tr = 3%nat)
    /\ (forall ev, In ev (routes tr) ->
        exists token,
          token <> 0 /\ token_query self tr = Some token
          /\ route_token ev = Some token).


(** The number of classes registered in [tr]. *)
Definition registrations (tr : list event) : nat :=
  List.length (filter is_register tr).

(** The diagnostic with which [createAnimationTimer] reports that
    [class_addMethod] answered [NO]. *)
Definition method_not_added : string :=
  "[createAnimationTimer] Method tahoeTimerTick: already exists or failed to add (continuing)\n".

(** ** An executable runtime

    A small stand-in for the Objective-C runtime, used to run the code on
    concrete scenarios: a class registry, a selector table, the
    associated-object store, and fixed answers to message sends. *)
Module Cocoa.

Record world := {
  classes : list (string * ptr);        (* registered classes *)
  allocated : list (ptr * string);      (* class pairs not yet registered *)
  methods : list (ptr * ptr);           (* installed (class, selector) *)
  selectors : list (string * ptr);      (* interned selector names *)
  associated : list (ptr * string * ptr);
  fresh : ptr;                          (* next unused address *)
  send : forall r : ret_shape, string -> ptr -> list arg -> ret_type r;
  mem_ptr : ptr -> ptr;
  mem_rect : ptr -> NSRect;
  mem_char : ptr -> Z
}.

Definition update (w : world) (cl : list (string * ptr))
  (al : list (ptr * string)) (me : list (ptr * ptr))
  (se : list (string * ptr)) (asc : list (ptr * string * ptr)) (fr : ptr)
  : world :=
  {| classes := cl; allocated := al; methods := me; selectors := se;
     associated := asc; fresh := fr; send := send w;
     mem_ptr := mem_ptr w; mem_rect := mem_rect w; mem_char := mem_char w |}.

Definition find_class (w : world) (name : string) : ptr :=
  match find (fun c => String.eqb (fst c) name) (classes w) with
  | Some c => snd c
  | None => NULL
  end.

Definition selector_name (w : world) (sel : ptr) : string :=
  match find (fun c => snd c =? sel) (selectors w) with
  | Some c => fst c
  | None => ""
  end.

Definition find_associated (w : world) (obj : ptr) (key : string) : ptr :=
  match find (fun c => (fst (fst c) =? obj) && String.eqb (snd (fst c)) key)
             (associated w) with
  | Some c => snd c
  | None => NULL
  end.

Definition answer : handler world :=
  fun A e w =>
    match e in Ext T return T * world with
    | fprintf_stderr _ _ => (tt, w)
    | fflush_stderr => (tt, w)
    | load_ptr a => (mem_ptr w a, w)
    | load_rect a => (mem_rect w a, w)
    | load_char a => (mem_char w a, w)
    | objc_msgSend r receiver sel args =>
        (send w r (selector_name w sel) receiver args, w)
    | objc_getClass name => (find_class w name, w)
    | objc_allocateClassPair super name extra =>
        if negb (find_class w name =? NULL) then (NULL, w)
        else (fresh w,
              update w (classes w) ((fresh w, name) :: allocated w) (methods w)
                (selectors w) (associated w) (fresh w + 0x100))
    | class_addMethod cls sel imp types =>
        if existsb (fun m => (fst m =? cls) && (snd m =? sel)) (methods w)
        then (false, w)
        else (true,
              update w (classes w) (allocated w) ((cls, sel) :: methods w)
                (selectors w) (associated w) (fresh w))
    | objc_registerClassPair cls =>
        match find (fun c => fst c =? cls) (allocated w) with
        | Some c =>
            (tt, update w ((snd c, cls) :: classes w) (allocated w) (methods w)
                   (selectors w) (associated w) (fresh w))
        | None => (tt, w)
        end
    | sel_registerName name =>
        match find (fun c => String.eqb (fst c) name) (selectors w) with
        | Some c => (snd c, w)
        | None =>
            (fresh w,
             update w (classes w) (allocated w) (methods w)
               ((name, fresh w) :: selectors w) (associated w) (fresh w + 8))
        end
    | objc_getAssociatedObject obj key => (find_associated w obj key, w)
    | objc_setAssociatedObject obj key value policy =>
        (tt, update w (classes w) (allocated w) (methods w) (selectors w)
               ((obj, key, value) :: associated w) (fresh w))
    | routeMouseEvent _ _ _ _ _ _ => (tt, w)
    | routeKeyboardEvent _ _ _ _ _ => (tt, w)
    | routeFocusEvent _ _ => (tt, w)
    | routeTickCallback _ => (tt, w)
    | routeWindowDidResize _ _ _ => (tt, w)
    end.

(** Addresses used by the scenarios. *)
Definition a_window : ptr := 0x30000.
Definition a_content_view : ptr := 0x30100.
Definition a_number : ptr := 0x30200.
Definition a_timer : ptr := 0x30300.
Definition a_string : ptr := 0x30400.
Definition a_notification : ptr := 0x30500.
Definition a_event : ptr := 0x30600.
Definition a_delegate : ptr := 0x30700.
Definition a_view : ptr := 0x30800.
Definition a_target : ptr := 0x30900.
Definition a_rect : ptr := 0x30a00.

Definition rect_of (w h : float) : NSRect :=
  {| origin := {| pt_x := 0; pt_y := 0 |};
     size := {| width := w; height := h |} |}.

(** Answers of the scenario to message sends: a notification about a
    window of 1024 by 768 whose content view is 800 by 600; pointer events
    at (10.5, 20.25) reporting button ordinal 5; a timer whose [userInfo]
    holds 42. *)
Definition scene (r : ret_shape) (sel : string) (receiver : ptr)
  (args : list arg) : ret_type r :=
  match r return ret_type r with
  | RetId =>
      if String.eqb sel "alloc" then receiver + 0x1000
      else if String.eqb sel "init" then receiver
      else if String.eqb sel "object" then a_window
      else if String.eqb sel "contentView" then a_content_view
      else if String.eqb sel "userInfo" then a_number
      else if String.eqb sel "numberWithUnsignedLongLong:" then a_number
      else if String.eqb sel
             "scheduledTimerWithTimeInterval:target:selector:userInfo:repeats:"
           then a_timer
      else if String.eqb sel "characters" then a_string
      else NULL
  | RetVoid => tt
  | RetNSRect =>
      if receiver =? a_content_view then rect_of 800 600 else rect_of 1024 768
  | RetNSPoint => {| pt_x := 10.5; pt_y := 20.25 |}
  | RetNSInteger => 5
  | RetNSUInteger => 0x100020000
  | RetUShort => 36
  | RetULongLong => 42
  | RetCString => a_string
  end.

(** The process at start: the framework classes named in [names] are
    loaded, nothing is synthesized yet, and memory holds a rectangle of
    [w] by [h] at every address. *)
Definition start (names : list string) (w h : float) : world :=
  {| classes := combine names [0x10000; 0x10100; 0x10200; 0x10300];
     allocated := []; methods := []; selectors := []; associated := [];
     fresh := 0x20000; send := scene;
     mem_ptr := fun _ => 0x10000; mem_rect := fun _ => rect_of w h;
     mem_char := fun _ => 13 |}.

Definition boot : world :=
  start ["NSObject"; "NSView"; "NSNumber"; "NSTimer"] 640 480.

(** [boot] in which the first selector the input view installs is already
    taken on the class about to be allocated, so that the runtime refuses
    the first [class_addMethod]. *)
Definition occupied : world :=
  update boot (classes boot) [] [(0x20000, 0x20100)] [] [] (fresh boot).

(** [boot] without the [NSTimer] class. *)
Definition without_NSTimer : world :=
  start ["NSObject"; "NSView"; "NSNumber"] 640 480.

(** [boot] after [objc_setAssociatedObject obj "windowPtr" token]. *)
Definition with_token (obj : ptr) (token : Z) : world :=
  snd (answer (objc_setAssociatedObject obj "windowPtr" token
                 OBJC_ASSOCIATION_ASSIGN) boot).

End Cocoa.

(** ** The image helper *)

(** An [NSSize] passed by value is recorded as its two fields, width then
    height. *)
Definition size_fields (size : NSSize) : list arg :=
  [ArgDouble (width size); ArgDouble (height size)].

(** [CGImageRef] is a pointer and is recorded as [ArgId]. *)
Definition createNSImageFromCGImage (cgImage : ptr) (width height : float)
  : prog ptr :=
  if cgImage =? NULL then bail "[createNSImageFromCGImage] NULL cgImage\n" [] NULL
  else
  let cgImageRef := cgImage in
  NSBitmapImageRepClass <- objc_getClass "NSBitmapImageRep" ;;
  if NSBitmapImageRepClass =? NULL then
    bail "[createNSImageFromCGImage] NSBitmapImageRep class not found\n" [] NULL
  else
  allocSel <- sel_registerName "alloc" ;;
  if allocSel =? NULL then
    bail "[createNSImageFromCGImage] alloc selector not found\n" [] NULL
  else
  bitmapRep <- objc_msgSend RetId NSBitmapImageRepClass allocSel [] ;;
  if bitmapRep =? NULL then
    bail "[createNSImageFromCGImage] NSBitmapImageRep alloc returned NULL\n" [] NULL
  else
  initWithCGImageSel <- sel_registerName "initWithCGImage:" ;;
  if initWithCGImageSel =? NULL then
    bail "[createNSImageFromCGImage] initWithCGImage: selector not found\n" [] NULL
  else
  initializedBitmapRep <- objc_msgSend RetId bitmapRep initWithCGImageSel
                            [ArgId cgImageRef] ;;
  if initializedBitmapRep =? NULL then
    bail "[createNSImageFromCGImage] NSBitmapImageRep initWithCGImage: returned NULL\n"
      [] NULL
  else
  NSImageClass <- objc_getClass "NSImage" ;;
  if NSImageClass =? NULL then
    bail "[createNSImageFromCGImage] NSImage class not found\n" [] NULL
  else
  nsImage <- objc_msgSend RetId NSImageClass allocSel [] ;;
  if nsImage =? NULL then
    bail "[createNSImageFromCGImage] NSImage alloc returned NULL\n" [] NULL
  else
  let size : NSSize := Build_NSSize width height in
  initWithSizeSel <- sel_registerName "initWithSize:" ;;
  if initWithSizeSel =? NULL then
    bail "[createNSImageFromCGImage] initWithSize: selector not found\n" [] NULL
  else
  initializedImage <- objc_msgSend RetId nsImage initWithSizeSel
                        (size_fields size) ;;
  if initializedImage =? NULL then
    bail "[createNSImageFromCGImage] NSImage initWithSize: returned NULL\n" [] NULL
  else
  addRepresentationSel <- sel_registerName "addRepresentation:" ;;
  if addRepresentationSel =? NULL then
    bail "[createNSImageFromCGImage] addRepresentation: selector not found\n"
      [] NULL
  else
  objc_msgSend RetVoid initializedImage addRepresentationSel
    [ArgId initializedBitmapRep] ;;
  fprintf_stderr "[createNSImageFromCGImage] Created NSImage at: %p\n"
    [FmtPtr initializedImage] ;;
  fflush_stderr ;;
  Ret initializedImage.

(** ** Observations used by the further properties *)

(** The foreign calls of a trace. *)
Definition sends (tr : list event) : list event := filter is_msgSend tr.

(** The diagnostics and flushes of a trace. *)
Definition written (tr : list event) : list event := filter is_stderr tr.

(** A gateway shim [forwards] a call: it makes no foreign call, or exactly
    the one it was asked for, and then returns what that call answered. *)
Definition forwards {S : Type} (shape : ret_shape) (receiver selector : ptr)
  (args : list arg) (o : outcome S (ret_type shape)) : Prop :=
  sends (trace o) = []
  \/ sends (trace o) = [Ev (objc_msgSend shape receiver selector args) (result o)].

(** The tests the shims apply to a receiver. *)
Definition valid_handle (p : ptr) : Prop :=
  p <> NULL /\ 0x1000 <= p /\ p mod 8 = 0.

(** None of the four tests on the dimensions of a rectangle fires. *)
Definition acceptable_dimensions (r : NSRect) : Prop :=
  (width (size r) <? 0)%float = false
  /\ (height (size r) <? 0)%float = false
  /\ (16384 <? width (size r))%float = false
  /\ (16384 <? height (size r))%float = false.









(** A callback [f] either routes or complains: it makes at most one
    routing call; when it makes none it ends with its diagnostic; when it
    makes one it writes nothing. *)
Definition routes_or_complains (tag : string)
  (f : ptr -> ptr -> ptr -> prog unit) : Prop :=
  forall (S : Type) (h : handler S) (s : S) (self _cmd arg : ptr),
    let tr := trace (run h (f self _cmd arg) s) in
    (List.length (routes tr) <= 1)%nat
    /\ (routes tr = [] -> diagnosed_by tag tr = true)
    /\ (routes tr <> [] -> written tr = []).

(** A focus callback [f] of kind [kind]: on an instance that is not null
    and whose store holds [token], whatever the notification, the token
    is read and one focus event of that kind is routed, and that is all. *)
Definition routes_focus (kind : Z) (f : ptr -> ptr -> ptr -> prog unit)
  : Prop :=
  forall (S : Type) (h : handler S) (s : S) (self _cmd notification : ptr)
         (token : Z),
    let tr := trace (run h (f self _cmd notification) s) in
    self <> NULL -> token <> 0 -> token_query self tr = Some token ->
    tr = [ Ev (objc_getAssociatedObject self "windowPtr") token;
           Ev (routeFocusEvent token kind) tt ].

(** The whole exchange of a pointer callback [f] of kind [kind] when no
    step fails: the location, the button ordinal and the modifier flags
    are asked of the native event, in that order, and forwarded. *)
Definition pointer_exchange (kind : Z) (f : ptr -> ptr -> ptr -> prog unit)
  : Prop :=
  forall (S : Type) (h : handler S) (s : S) (self _cmd event : ptr),
    let tr := trace (run h (f self _cmd event) s) in
    self <> NULL -> event <> NULL -> no_failed_step tr = true ->
    exists token locationSel location buttonNumberSel button_num
           modifierFlagsSel modifiers,
      token <> 0
      /\ tr = [ Ev (objc_getAssociatedObject self "windowPtr") token;
                Ev (sel_registerName "locationInWindow") locationSel;
                Ev (objc_msgSend RetNSPoint event locationSel []) location;
                Ev (sel_registerName "buttonNumber") buttonNumberSel;
                Ev (objc_msgSend RetNSInteger event buttonNumberSel [])
                   button_num;
                Ev (sel_registerName "modifierFlags") modifierFlagsSel;
                Ev (objc_msgSend RetNSUInteger event modifierFlagsSel [])
                   modifiers;
                Ev (routeMouseEvent token kind
                      (if (button_num <? 0) || (button_num >? 2) then 3
                       else to_uint32 button_num)
                      (pt_x location) (pt_y location) (to_uint32 modifiers))
                   tt ].

(** The exchange of the move callback: the button is not asked for. *)
Definition move_exchange (f : ptr -> ptr -> ptr -> prog unit) : Prop :=
  forall (S : Type) (h : handler S) (s : S) (self _cmd event : ptr),
    let tr := trace (run h (f self _cmd event) s) in
    self <> NULL -> event <> NULL -> no_failed_step tr = true ->
    exists token locationSel location modifierFlagsSel modifiers,
      token <> 0
      /\ tr = [ Ev (objc_getAssociatedObject self "windowPtr") token;
                Ev (sel_registerName "locationInWindow") locationSel;
                Ev (objc_msgSend RetNSPoint event locationSel []) location;
                Ev (sel_registerName "modifierFlags") modifierFlagsSel;
                Ev (objc_msgSend RetNSUInteger event modifierFlagsSel [])
                   modifiers;
                Ev (routeMouseEvent token 2 0 (pt_x location) (pt_y location)
                      (to_uint32 modifiers)) tt ].



(** ** A second scenario

    A process in which the two image classes are loaded and their
    initialisers answer the receiver, key events carry no string of
    characters, the view [Cocoa.a_view] holds token 42, and memory holds
    a rectangle of 16384 by 0 at every address. *)
Definition studio_scene (r : ret_shape) (sel : string) (receiver : ptr)
  (args : list arg) : ret_type r :=
  match r return ret_type r with
  | RetId =>
      if String.eqb sel "initWithCGImage:" || String.eqb sel "initWithSize:"
      then receiver
      else if String.eqb sel "characters" then NULL
      else Cocoa.scene RetId sel receiver args
  | RetVoid => tt
  | RetNSRect => Cocoa.scene RetNSRect sel receiver args
  | RetNSPoint => Cocoa.scene RetNSPoint sel receiver args
  | RetNSInteger => Cocoa.scene RetNSInteger sel receiver args
  | RetNSUInteger => Cocoa.scene RetNSUInteger sel receiver args
  | RetUShort => Cocoa.scene RetUShort sel receiver args
  | RetULongLong => Cocoa.scene RetULongLong sel receiver args
  | RetCString => Cocoa.scene RetCString sel receiver args
  end.

Definition studio : Cocoa.world :=
  {| Cocoa.classes := [("NSBitmapImageRep", 0x10000); ("NSImage", 0x10100)];
     Cocoa.allocated := []; Cocoa.methods := []; Cocoa.selectors := [];
     Cocoa.associated := [(Cocoa.a_view, "windowPtr", 42)];
     Cocoa.fresh := 0x20000; Cocoa.send := studio_scene;
     Cocoa.mem_ptr := fun _ => 0x10000;
     Cocoa.mem_rect := fun _ => Cocoa.rect_of 16384 0;
     Cocoa.mem_char := fun _ => 13 |}.

(** The address of the pixel source in the second scenario. *)
Definition a_cgimage : ptr := 0x40000.

(** * Properties *)

Unset Implicit Arguments.

Lemma always_run (R : Type) (p : prog R) :
  forall Q, always p Q ->
  forall (S : Type) (h : handler S) (s : S),
    Q (trace (run h p s)) (result (run h p s)).
Proof.
  induction p as [r | A e k IH]; intros Q HQ S h s; cbn.
  - exact HQ.
  - destruct (h A e s) as [a s']. cbn.
    apply (IH a (fun tr r => Q (Ev e a :: tr) r)). apply HQ.
Qed.

(** ** Proof automation: walking every path of a program *)

Create HintDb progs.

#[local] Hint Unfold bail
  objc_msgSend_wrapper_string objc_msgSend_wrapper objc_msgSend_wrapper_rect
  objc_msgSend_wrapper_4 objc_msgSend_void_1 objc_msgSend_void_0
  objc_msgSend_void_1_bool objc_msgSend_wrapper_1_uint
  objc_msgSend_returns_NSRect
  windowDidResizeImpl windowDidBecomeKeyImpl windowDidResignKeyImpl
  createWindowDelegate_instance createWindowDelegate
  tahoeTimerTickImpl createAnimationTimer_instance createAnimationTimer
  tahoeViewMouseDownImpl tahoeViewMouseUpImpl tahoeViewMouseDraggedImpl
  tahoeViewMouseMovedImpl tahoeViewKeyDownImpl tahoeViewKeyUpImpl
  tahoeViewAcceptsFirstResponderImpl
  createTahoeView_instance createTahoeView : progs.

(** Turns a goal about [run h p s] into a goal about every path of [p]. *)
Ltac by_paths :=
  cbv zeta;
  match goal with
  | |- context [run ?h ?p ?s] =>
      pattern (trace (run h p s)), (result (run h p s));
      apply always_run
  end;
  autounfold with progs; cbv beta zeta.

(** Walks the tree: introduces the answer of each call and splits on each
    test, calling [leaf] where the function returns. *)
Ltac walk leaf :=
  lazymatch goal with
  | |- always (if ?c then _ else _) _ => destruct c eqn:?; walk leaf
  | |- always (Vis _ _) _ => cbn [always]; walk leaf
  | |- always (Ret _) _ => cbn [always]; walk leaf
  | |- forall _, _ => intro; walk leaf
  | |- _ => leaf
  end.

(** Rewrites the recorded tests into arithmetic facts. *)
Ltac tests :=
  unfold NULL in *;
  repeat match goal with
  | H : (_ || _) = true |- _ => apply orb_true_iff in H; destruct H
  | H : (_ || _) = false |- _ => apply orb_false_iff in H; destruct H
  | H : (_ && _) = true |- _ => apply andb_true_iff in H; destruct H
  | H : negb _ = true |- _ => apply negb_true_iff in H
  | H : negb _ = false |- _ => apply negb_false_iff in H
  | H : (_ =? _) = true |- _ => apply Z.eqb_eq in H
  | H : (_ =? _) = false |- _ => apply Z.eqb_neq in H
  | H : (_ <? _) = true |- _ => apply Z.ltb_lt in H
  | H : (_ <? _) = false |- _ => apply Z.ltb_ge in H
  | H : (_ >? _) = true |- _ => rewrite Z.gtb_ltb in H; apply Z.ltb_lt in H
  | H : (_ >? _) = false |- _ => rewrite Z.gtb_ltb in H; apply Z.ltb_ge in H
  | u : unit |- _ => destruct u
  end.

(** ** The gateway *)

(** A leaf of a gateway shim is rejected, or contradicts the invalidity of
    the handle. *)
Ltac rejected_leaf H :=
  first [ repeat split; reflexivity
        | exfalso; unfold invalid_handle in H; tests; lia ].

(** C1 (as amended).  In every gateway operation except the one returning
    a rectangle, a receiver that is null, below [0x1000] or not a multiple
    of 8 is rejected: the sentinel is returned, no foreign call is made and
    nothing is read through a pointer.  The same holds for the rectangle
    pointer of the two rectangle shims, and for the handle argument of the
    one-handle shim unless that argument is null.  The string argument is
    rejected when null or below [0x1000].  A selector is rejected when it
    is null, and the shim returning a rectangle rejects a null receiver or
    selector with the empty rectangle. *)
Theorem gateway_rejects_invalid_handles
  (S : Type) (h : handler S) (s : S) (p a b : ptr) (n m : Z) (f : bool) :
  (invalid_handle p ->
     rejected NULL (run h (objc_msgSend_wrapper_string p a b) s)
  /\ rejected NULL (run h (objc_msgSend_wrapper p a) s)
  /\ rejected NULL (run h (objc_msgSend_wrapper_rect p a b) s)
  /\ rejected NULL (run h (objc_msgSend_wrapper_4 p a b n m f) s)
  /\ rejected tt (run h (objc_msgSend_void_1 p a b) s)
  /\ rejected tt (run h (objc_msgSend_void_0 p a) s)
  /\ rejected tt (run h (objc_msgSend_void_1_bool p a f) s)
  /\ rejected NULL (run h (objc_msgSend_wrapper_1_uint p a n) s)
  /\ rejected NULL (run h (objc_msgSend_wrapper_rect a b p) s)
  /\ rejected NULL (run h (objc_msgSend_wrapper_4 a b p n m f) s)
  /\ (p <> NULL -> rejected tt (run h (objc_msgSend_void_1 a b p) s)))
  /\ (p = NULL \/ p < 0x1000 ->
      rejected NULL (run h (objc_msgSend_wrapper_string a b p) s))
  /\ (p = NULL ->
     rejected NULL (run h (objc_msgSend_wrapper_string a p b) s)
  /\ rejected NULL (run h (objc_msgSend_wrapper a p) s)
  /\ rejected NULL (run h (objc_msgSend_wrapper_rect a p b) s)
  /\ rejected NULL (run h (objc_msgSend_wrapper_4 a p b n m f) s)
  /\ rejected tt (run h (objc_msgSend_void_1 a p b) s)
  /\ rejected tt (run h (objc_msgSend_void_0 a p) s)
  /\ rejected tt (run h (objc_msgSend_void_1_bool a p f) s)
  /\ rejected NULL (run h (objc_msgSend_wrapper_1_uint a p n) s)
  /\ rejected empty_rect (run h (objc_msgSend_returns_NSRect p a) s)
  /\ rejected empty_rect (run h (objc_msgSend_returns_NSRect a p) s)).
Proof.
  split; [intro H | split; intro H].
  - repeat match goal with |- _ /\ _ => split end; try intro Hp;
      unfold rejected; by_paths; walk ltac:(rejected_leaf H).
  - assert (H' : invalid_handle p) by (unfold invalid_handle; tauto).
    unfold rejected; by_paths;
      walk ltac:(first [ repeat split; reflexivity
                       | exfalso; tests; lia ]).
  - subst p.
    repeat match goal with |- _ /\ _ => split end;
      unfold rejected; by_paths;
      walk ltac:(first [ repeat split; reflexivity
                       | exfalso; tests; lia ]).
Qed.

Lemma gateway_rejects_invalid_handles_witness :
  rejected tt (run Cocoa.answer
                 (objc_msgSend_void_1 Cocoa.a_view 0x5000 0x1001) Cocoa.boot)
  /\ rejected NULL (run Cocoa.answer
                      (objc_msgSend_wrapper_string Cocoa.a_view 0x5000 NULL)
                      Cocoa.boot)
  /\ rejected empty_rect (run Cocoa.answer
                            (objc_msgSend_returns_NSRect NULL 0x5000)
                            Cocoa.boot).
Proof.
  destruct (gateway_rejects_invalid_handles _ Cocoa.answer Cocoa.boot
              0x1001 Cocoa.a_view 0x5000 0 0 true) as [H1 _].
  destruct (gateway_rejects_invalid_handles _ Cocoa.answer Cocoa.boot
              NULL Cocoa.a_view 0x5000 0 0 true) as [_ [H2 H3]].
  split; [| split].
  - apply H1; [right; right | ]; vm_compute; discriminate.
  - apply H2. left. reflexivity.
  - apply H3. reflexivity.
Defined.

(** C1 fails as stated.  The one-handle shim passes a null handle
    argument on to the foreign call (the source allows it: "can be NULL
    for some methods"), and the shim returning a rectangle performs the
    foreign call on a receiver at address 8, below the floor. *)
Lemma gateway_invalid_handle_reaches_foreign_call :
  invalid_handle NULL /\ invalid_handle 8
  /\ trace (run Cocoa.answer
              (objc_msgSend_void_1 Cocoa.a_view 0x5000 NULL) Cocoa.boot)
     = [Ev (objc_msgSend RetVoid Cocoa.a_view 0x5000 [ArgId NULL]) tt]
  /\ trace (run Cocoa.answer (objc_msgSend_returns_NSRect 8 0x5000) Cocoa.boot)
     = [Ev (objc_msgSend RetNSRect 8 0x5000 []) (Cocoa.rect_of 1024 768)].
Proof.
  repeat split.
  - left. reflexivity.
  - right. left. reflexivity.
Qed.

Lemma run_load_rect_bad (S : Type) (h : handler S) (s : S) (rect_ptr : ptr)
  (k : NSRect -> prog ptr) :
  (forall rect, bad_dimensions rect ->
     always (k rect) (fun tr r => r = NULL /\ no_msgSend tr = true)) ->
  bad_dimensions (fst (h NSRect (load_rect rect_ptr) s)) ->
  let o := run h (Vis (load_rect rect_ptr) k) s in
  result o = NULL /\ no_msgSend (trace o) = true.
Proof.
  intros Hk Hbad. cbn. destruct (h NSRect (load_rect rect_ptr) s) as [rect s1].
  cbn in *.
  apply (always_run _ (k rect)
           (fun tr r => r = NULL /\ no_msgSend tr = true)).
  apply Hk. exact Hbad.
Qed.

(** C2.  Whenever the rectangle stored at [rect_ptr] has a negative width
    or height, or a width or height above 16384, the one-rectangle shim
    and the rectangle-plus-three-scalars shim return null and make no
    foreign call. *)
Theorem rect_shims_reject_bad_dimensions
  (S : Type) (h : handler S) (s : S) (receiver selector rect_ptr : ptr)
  (arg2 arg3 : Z) (arg4 : bool) :
  bad_dimensions (fst (h NSRect (load_rect rect_ptr) s)) ->
  (let o := run h (objc_msgSend_wrapper_rect receiver selector rect_ptr) s in
   result o = NULL /\ no_msgSend (trace o) = true)
  /\ (let o := run h (objc_msgSend_wrapper_4 receiver selector rect_ptr
                        arg2 arg3 arg4) s in
      result o = NULL /\ no_msgSend (trace o) = true).
Proof.
  intro Hbad.
  split; cbv zeta;
    [unfold objc_msgSend_wrapper_rect | unfold objc_msgSend_wrapper_4];
    repeat match goal with
    | |- context [run h (if ?c then _ else _) s] =>
        destruct c eqn:?; [by_paths; walk ltac:(split; reflexivity) |]
    end;
    (apply run_load_rect_bad; [| exact Hbad]);
    intros rect Hr;
    walk ltac:(first [ split; reflexivity
                     | exfalso; tests; unfold bad_dimensions in Hr;
                       destruct Hr as [Hr | [Hr | [Hr | Hr]]]; congruence ]).
Qed.

Lemma rect_shims_reject_bad_dimensions_witness :
  let w := Cocoa.start [] 20000 100 in
  (let o := run Cocoa.answer
              (objc_msgSend_wrapper_rect Cocoa.a_view 0x5000 Cocoa.a_rect) w in
   result o = NULL /\ no_msgSend (trace o) = true)
  /\ (let o := run Cocoa.answer
                 (objc_msgSend_wrapper_4 Cocoa.a_view 0x5000 Cocoa.a_rect
                    15 2 false) w in
      result o = NULL /\ no_msgSend (trace o) = true).
Proof.
  apply (rect_shims_reject_bad_dimensions _ Cocoa.answer (Cocoa.start [] 20000 100)
           Cocoa.a_view 0x5000 Cocoa.a_rect 15 2 false).
  right. right. left. reflexivity.
Defined.

(** C10.  When either unsigned scalar of the rectangle-plus-three-scalars
    shim exceeds [0xFFFFFFFF], the call returns null, ends with the
    diagnostic of the shim, and neither reads the rectangle nor makes the
    foreign call. *)
Theorem wrapper_4_rejects_wide_scalars
  (S : Type) (h : handler S) (s : S) (receiver selector rect_ptr : ptr)
  (arg2 arg3 : Z) (arg4 : bool) :
  arg2 > 0xFFFFFFFF \/ arg3 > 0xFFFFFFFF ->
  let o := run h (objc_msgSend_wrapper_4 receiver selector rect_ptr
                    arg2 arg3 arg4) s in
  result o = NULL /\ no_msgSend (trace o) = true /\ no_load (trace o) = true
  /\ diagnosed_by "[objc_wrapper_4]" (trace o) = true.
Proof.
  intro H. by_paths.
  walk ltac:(first [ repeat split; reflexivity | exfalso; tests; lia ]).
Qed.

Lemma wrapper_4_rejects_wide_scalars_witness :
  let o := run Cocoa.answer
             (objc_msgSend_wrapper_4 Cocoa.a_view 0x5000 Cocoa.a_rect
                0x100000000 2 false) Cocoa.boot in
  result o = NULL /\ no_msgSend (trace o) = true /\ no_load (trace o) = true
  /\ diagnosed_by "[objc_wrapper_4]" (trace o) = true.
Proof.
  apply (wrapper_4_rejects_wide_scalars _ Cocoa.answer Cocoa.boot
           Cocoa.a_view 0x5000 Cocoa.a_rect 0x100000000 2 false).
  left. reflexivity.
Defined.





(** ** The callbacks *)

(** Closes a leaf on which the runtime failed to deliver although the
    hypothesis [H] says that no step failed. *)
Ltac absurd_failure H :=
  exfalso; unfold no_failed_step in H; cbn in H; unfold NULL in *;
  repeat match goal with
  | E : (_ =? _) = _ |- _ => rewrite E in H
  end;
  cbn in H; discriminate H.

(** C9.  The resize callback makes at most one routing call.  On an
    instance and a notification that are not null, when the store holds a
    token and every query is answered (selectors, the window of the
    notification, its content view), the whole exchange is: the token is
    read from the store, the window is asked for its frame and for its
    content view, the content view is asked for its frame, and the resize
    router is called exactly once with the token and the width and height
    of the content view's frame, not those of the window's frame. *)
Theorem resize_routes_content_view_frame
  (S : Type) (h : handler S) (s : S) (self _cmd notification : ptr) :
  let tr := trace (run h (windowDidResizeImpl self _cmd notification) s) in
  (List.length (routes tr) <= 1)%nat
  /\ (self <> NULL -> notification <> NULL -> no_failed_step tr = true ->
      exists token objectSel ns_window frameSel frame contentViewSel
             content_view content_frame,
        token <> 0
        /\ tr = [ Ev (objc_getAssociatedObject self "windowPtr") token;
                  Ev (sel_registerName "object") objectSel;
                  Ev (objc_msgSend RetId notification objectSel []) ns_window;
                  Ev (sel_registerName "frame") frameSel;
                  Ev (objc_msgSend RetNSRect ns_window frameSel []) frame;
                  Ev (sel_registerName "contentView") contentViewSel;
                  Ev (objc_msgSend RetId ns_window contentViewSel [])
                     content_view;
                  Ev (objc_msgSend RetNSRect content_view frameSel [])
                     content_frame;
                  Ev (routeWindowDidResize token
                        (width (size content_frame))
                        (height (size content_frame))) tt ]).
Proof.
  by_paths.
  walk ltac:(split;
    [ cbn; lia
    | intros Hself Hnotif Hok;
      first [ absurd_failure Hok
            | exfalso; tests; congruence
            | tests; do 8 eexists; (split; [| reflexivity]); assumption ] ]).
Qed.

Lemma resize_routes_content_view_frame_witness :
  let tr := trace (run Cocoa.answer
                     (windowDidResizeImpl Cocoa.a_delegate 0 Cocoa.a_notification)
                     (Cocoa.with_token Cocoa.a_delegate 42)) in
  exists token objectSel ns_window frameSel frame contentViewSel
         content_view content_frame,
    token <> 0
    /\ tr = [ Ev (objc_getAssociatedObject Cocoa.a_delegate "windowPtr") token;
              Ev (sel_registerName "object") objectSel;
              Ev (objc_msgSend RetId Cocoa.a_notification objectSel [])
                 ns_window;
              Ev (sel_registerName "frame") frameSel;
              Ev (objc_msgSend RetNSRect ns_window frameSel []) frame;
              Ev (sel_registerName "contentView") contentViewSel;
              Ev (objc_msgSend RetId ns_window contentViewSel []) content_view;
              Ev (objc_msgSend RetNSRect content_view frameSel [])
                 content_frame;
              Ev (routeWindowDidResize token
                    (width (size content_frame))
                    (height (size content_frame))) tt ].
Proof.
  apply (resize_routes_content_view_frame _ Cocoa.answer
           (Cocoa.with_token Cocoa.a_delegate 42)
           Cocoa.a_delegate 0 Cocoa.a_notification);
    [ discriminate | discriminate | reflexivity ].
Defined.

(** The scenario of the specification: the window frame is 1024 by 768,
    the content view's frame 800 by 600, the token 42. *)
Example resize_scenario_800_600 :
  routes (trace (run Cocoa.answer
                   (windowDidResizeImpl Cocoa.a_delegate 0 Cocoa.a_notification)
                   (Cocoa.with_token Cocoa.a_delegate 42)))
  = [Ev (routeWindowDidResize 42 800 600) tt].
Proof. reflexivity. Qed.

Lemma button_in_range (button_num : Z) :
  0 <= (if (button_num <? 0) || (button_num >? 2) then 3
        else to_uint32 button_num) <= 3.
Proof.
  destruct ((button_num <? 0) || (button_num >? 2)) eqn:E; [lia |].
  tests. unfold to_uint32. rewrite Z.mod_small; lia.
Qed.

Lemma button_kept (button_num : Z) :
  0 <= button_num <= 2 ->
  (if (button_num <? 0) || (button_num >? 2) then 3
   else to_uint32 button_num) = button_num.
Proof.
  intro H. destruct ((button_num <? 0) || (button_num >? 2)) eqn:E.
  - tests; lia.
  - unfold to_uint32. rewrite Z.mod_small; lia.
Qed.

Lemma button_clamped (button_num : Z) :
  button_num < 0 \/ button_num > 2 ->
  (if (button_num <? 0) || (button_num >? 2) then 3
   else to_uint32 button_num) = 3.
Proof.
  intro H. destruct ((button_num <? 0) || (button_num >? 2)) eqn:E.
  - reflexivity.
  - tests; lia.
Qed.

(** Finds an event in a concrete trace. *)
Ltac in_trace := cbn [In]; repeat first [left; reflexivity | right].

Ltac pointer_leaf :=
  split;
  [ unfold routes; cbn; intros ev Hin;
    first [ contradiction
          | destruct Hin as [<- | []]; tests; do 5 eexists;
            split; [reflexivity | apply button_in_range]
          | destruct Hin as [<- | []]; tests; do 4 eexists; reflexivity ]
  | intros Hself Hevent Hok;
    first [ absurd_failure Hok
          | exfalso; tests; congruence
          | tests; do 6 eexists;
            (split; [| split; [reflexivity | split]]);
            [ in_trace | apply button_kept | apply button_clamped ]
          | tests; do 3 eexists; reflexivity ] ].

(** C8.  Press routes kind 0, release kind 1, drag kind 3, each with the
    button ordinal of the native event when it is 0, 1 or 2 and with
    button 3 otherwise; move routes kind 2 with button 0. *)
Theorem pointer_event_kinds :
  routes_pointer_event 0 tahoeViewMouseDownImpl
  /\ routes_pointer_event 1 tahoeViewMouseUpImpl
  /\ routes_pointer_event 3 tahoeViewMouseDraggedImpl
  /\ routes_pointer_move tahoeViewMouseMovedImpl.
Proof.
  split; [| split; [| split]];
    intros S h s self _cmd event; by_paths; walk pointer_leaf.
Qed.

Lemma pointer_event_kinds_witness :
  let tr := trace (run Cocoa.answer
                     (tahoeViewMouseDownImpl Cocoa.a_view 0 Cocoa.a_event)
                     (Cocoa.with_token Cocoa.a_view 42)) in
  exists token location buttonNumberSel button_num modifiers button,
    In (Ev (objc_msgSend RetNSInteger Cocoa.a_event buttonNumberSel [])
          button_num) tr
    /\ routes tr
       = [Ev (routeMouseEvent token 0 button (pt_x location)
                (pt_y location) (to_uint32 modifiers)) tt]
    /\ (0 <= button_num <= 2 -> button = button_num)
    /\ (button_num < 0 \/ button_num > 2 -> button = 3).
Proof.
  destruct pointer_event_kinds as [H _].
  apply (H _ Cocoa.answer (Cocoa.with_token Cocoa.a_view 42)
           Cocoa.a_view 0 Cocoa.a_event);
    [ discriminate | discriminate | reflexivity ].
Defined.

(** A press whose native event reports button ordinal 5 is routed with
    button 3; the modifier flags are truncated to 32 bits. *)
Example press_scenario :
  routes (trace (run Cocoa.answer
                   (tahoeViewMouseDownImpl Cocoa.a_view 0 Cocoa.a_event)
                   (Cocoa.with_token Cocoa.a_view 42)))
  = [Ev (routeMouseEvent 42 0 3 10.5 20.25 0x20000) tt].
Proof. reflexivity. Qed.

Ltac guarded_leaf :=
  split; [| split];
  [ first [ left; split; reflexivity
          | right; eexists; cbn; rewrite Z.eqb_refl; reflexivity ]
  | let Hq := fresh "Hq" in
    cbn; rewrite ?Z.eqb_refl; cbn; intro Hq;
    first [ discriminate Hq
          | repeat split; reflexivity
          | exfalso; inversion Hq; tests; congruence ]
  | unfold routes; cbn; intros ev Hin;
    first [ contradiction
          | destruct Hin as [<- | []]; eexists;
            rewrite ?Z.eqb_refl; cbn;
            (split; [| split; reflexivity]); tests; assumption ] ].

(** C7 (as amended).  The three window-delegate callbacks and the six
    pointer and key callbacks of the input view read the token from the
    associated-state store of the receiving instance, stop with a
    diagnostic and route nothing when the store has none, and route only
    the token they read.  The timer callback does not consult the store:
    it takes the token from the number held by the timer's [userInfo],
    stops with a diagnostic when that number is zero, and otherwise
    routes one tick with it.  The first-responder callback uses no token
    and routes nothing. *)
Theorem callbacks_guarded_by_token :
  token_guarded "[windowDidResizeImpl]" windowDidResizeImpl
  /\ token_guarded "[windowDidBecomeKeyImpl]" windowDidBecomeKeyImpl
  /\ token_guarded "[windowDidResignKeyImpl]" windowDidResignKeyImpl
  /\ token_guarded "[tahoeViewMouseDownImpl]" tahoeViewMouseDownImpl
  /\ token_guarded "[tahoeViewMouseUpImpl]" tahoeViewMouseUpImpl
  /\ token_guarded "[tahoeViewMouseDraggedImpl]" tahoeViewMouseDraggedImpl
  /\ token_guarded "[tahoeViewMouseMovedImpl]" tahoeViewMouseMovedImpl
  /\ token_guarded "[tahoeViewKeyDownImpl]" tahoeViewKeyDownImpl
  /\ token_guarded "[tahoeViewKeyUpImpl]" tahoeViewKeyUpImpl
  /\ (forall (S : Type) (h : handler S) (s : S) (self _cmd timer : ptr),
        let tr := trace (run h (tahoeTimerTickImpl self _cmd timer) s) in
        existsb is_getAssociated tr = false
        /\ (In 0 (ull_answers tr) ->
            routes tr = []
            /\ diagnosed_by "[tahoeTimerTickImpl]" tr = true)
        /\ (forall ev, In ev (routes tr) ->
            exists token,
              token <> 0 /\ ull_answers tr = [token]
              /\ ev = Ev (routeTickCallback token) tt)
        /\ (forall token, ull_answers tr = [token] -> token <> 0 ->
            routes tr = [Ev (routeTickCallback token) tt]))
  /\ (forall (S : Type) (h : handler S) (s : S) (self _cmd : ptr),
        let tr := trace (run h (tahoeViewAcceptsFirstResponderImpl self _cmd)
                           s) in
        existsb is_getAssociated tr = false /\ routes tr = []).
Proof.
  repeat match goal with |- _ /\ _ => split end;
    try (intros S h s self _cmd arg; by_paths; walk guarded_leaf).
  - intros S h s self _cmd timer. by_paths.
    walk ltac:(split; [reflexivity | split; [| split]];
      [ cbn; intro H0;
        first [ contradiction
              | split; reflexivity
              | exfalso; destruct H0 as [H0 | []]; tests; congruence ]
      | unfold routes; cbn; intros ev Hin;
        first [ contradiction
              | destruct Hin as [<- | []]; tests; eexists;
                (split; [| split; reflexivity]); assumption ]
      | cbn; intros token Ht Hnz;
        first [ discriminate Ht
              | inversion Ht; subst; tests; first [reflexivity | congruence] ]
      ]).
  - intros S h s self _cmd. by_paths. walk ltac:(split; reflexivity).
Qed.

Lemma callbacks_guarded_by_token_witness :
  let tr := trace (run Cocoa.answer
                     (windowDidResizeImpl Cocoa.a_delegate 0 Cocoa.a_notification)
                     Cocoa.boot) in
  routes tr = [] /\ diagnosed_by "[windowDidResizeImpl]" tr = true
  /\ List.length tr = 3%nat.
Proof.
  destruct callbacks_guarded_by_token as [H _].
  apply (H _ Cocoa.answer Cocoa.boot Cocoa.a_delegate 0 Cocoa.a_notification).
  reflexivity.
Defined.

(** C7 fails as stated: on a timer target that has no token in the
    associated-state store, the timer callback never queries the store and
    routes the tick with the number carried by the timer. *)
Lemma timer_tick_routes_without_stored_token :
  Cocoa.find_associated Cocoa.boot Cocoa.a_target "windowPtr" = NULL
  /\ (let tr := trace (run Cocoa.answer
                         (tahoeTimerTickImpl Cocoa.a_target 0 Cocoa.a_timer)
                         Cocoa.boot) in
      existsb is_getAssociated tr = false
      /\ routes tr = [Ev (routeTickCallback 42) tt]).
Proof.
  repeat split.
Qed.

(** ** Type synthesis *)

(** Uses the recorded tests to evaluate the goal or a hypothesis. *)
Ltac eval_goal :=
  cbn; unfold NULL in *;
  repeat match goal with
  | E : (_ =? _) = _ |- _ => rewrite E
  | E : negb _ = _ |- _ => rewrite E
  end;
  cbn.

Ltac eval_in H :=
  cbn in H; unfold NULL in *;
  repeat match goal with
  | E : (_ =? _) = _ |- _ => rewrite E in H
  | E : negb _ = _ |- _ => rewrite E in H
  end;
  cbn in H.











(** Both runs of the scenario: the first registers the class, the second
    only looks it up. *)
Example view_synthesis_twice :
  let o1 := run Cocoa.answer (createTahoeView 42) Cocoa.boot in
  let o2 := run Cocoa.answer (createTahoeView 43) (final o1) in
  registrations (trace o1) = 1%nat /\ registrations (trace o2) = 0%nat
  /\ result o1 <> NULL /\ result o2 <> NULL.
Proof. vm_compute. repeat split; discriminate. Qed.


(** A leaf of a constructor: the hypothesis [H] about the trace is either
    absurd on this path, or the path ends as the goal says. *)
Ltac install_leaf H :=
  first [ eval_in H; discriminate H
        | repeat split; eval_goal; reflexivity ].

Lemma createWindowDelegate_install
  (S : Type) (h : handler S) (s : S) (window_ptr : Z) :
  let o := run h (createWindowDelegate window_ptr) s in
  (existsb install_failed (trace o) = true ->
   result o = NULL /\ aborts_after install_failed (trace o) = true
   /\ diagnosed_by "[createWindowDelegate]" (trace o) = true)
  /\ (existsb install_refused (trace o) = true ->
      existsb is_register (trace o) = false /\ no_msgSend (trace o) = true).
Proof.
  by_paths.
  walk ltac:(split;
    let H := fresh "H" in intro H; unfold install_failed in *; install_leaf H).
Qed.

Lemma createTahoeView_install
  (S : Type) (h : handler S) (s : S) (window_ptr : Z) :
  let o := run h (createTahoeView window_ptr) s in
  (existsb install_failed (trace o) = true ->
   result o = NULL /\ aborts_after install_failed (trace o) = true
   /\ diagnosed_by "[createTahoeView]" (trace o) = true)
  /\ (existsb install_refused (trace o) = true ->
      existsb is_register (trace o) = false /\ no_msgSend (trace o) = true).
Proof.
  by_paths.
  walk ltac:(split;
    let H := fresh "H" in intro H; unfold install_failed in *; install_leaf H).
Qed.

Lemma createAnimationTimer_install
  (S : Type) (h : handler S) (s : S) (window_ptr : Z) (interval : float) :
  let o := run h (createAnimationTimer window_ptr interval) s in
  (existsb selector_unresolved (trace o) = true ->
   result o = NULL /\ aborts_after selector_unresolved (trace o) = true
   /\ diagnosed_by "[createAnimationTimer]" (trace o) = true)
  /\ (existsb install_refused (trace o) = true ->
      In (Some method_not_added) (map diag_of (trace o))
      /\ (no_failed_step (trace o) = true -> result o <> NULL)).
Proof.
  by_paths.
  walk ltac:(split;
    let H := fresh "H" in intro H;
    first [ install_leaf H
          | split;
            [ unfold method_not_added; cbn; in_trace
            | let Hok := fresh "Hok" in
              intro Hok;
              first [ absurd_failure Hok | tests; assumption ] ] ]).
Qed.

(** C5 (as amended).  While the window delegate or the input view is
    built, a selector that does not resolve or a method installation that
    the runtime refuses ends the call on the spot: the diagnostic is
    written and flushed, null is returned, and after a refused
    installation the class is never registered and no instance is
    created.  While the animation timer is built, a selector that does
    not resolve ends the call the same way, but a refused installation of
    the tick method only writes the diagnostic saying so and the call
    goes on: it returns a timer unless some other step fails. *)
Theorem synthesis_install_failures
  (S : Type) (h : handler S) (s : S) (window_ptr : Z) (interval : float) :
  (let o := run h (createWindowDelegate window_ptr) s in
   (existsb install_failed (trace o) = true ->
    result o = NULL /\ aborts_after install_failed (trace o) = true
    /\ diagnosed_by "[createWindowDelegate]" (trace o) = true)
   /\ (existsb install_refused (trace o) = true ->
       existsb is_register (trace o) = false /\ no_msgSend (trace o) = true))
  /\ (let o := run h (createTahoeView window_ptr) s in
      (existsb install_failed (trace o) = true ->
       result o = NULL /\ aborts_after install_failed (trace o) = true
       /\ diagnosed_by "[createTahoeView]" (trace o) = true)
      /\ (existsb install_refused (trace o) = true ->
          existsb is_register (trace o) = false
          /\ no_msgSend (trace o) = true))
  /\ (let o := run h (createAnimationTimer window_ptr interval) s in
      (existsb selector_unresolved (trace o) = true ->
       result o = NULL /\ aborts_after selector_unresolved (trace o) = true
       /\ diagnosed_by "[createAnimationTimer]" (trace o) = true)
      /\ (existsb install_refused (trace o) = true ->
          In (Some method_not_added) (map diag_of (trace o))
          /\ (no_failed_step (trace o) = true -> result o <> NULL))).
Proof.
  split; [| split].
  - apply createWindowDelegate_install.
  - apply createTahoeView_install.
  - apply createAnimationTimer_install.
Qed.

Lemma synthesis_install_failures_witness :
  let o := run Cocoa.answer (createTahoeView 42) Cocoa.occupied in
  (result o = NULL /\ aborts_after install_failed (trace o) = true
   /\ diagnosed_by "[createTahoeView]" (trace o) = true)
  /\ existsb is_register (trace o) = false /\ no_msgSend (trace o) = true.
Proof.
  destruct (synthesis_install_failures _ Cocoa.answer Cocoa.occupied 42 0.5)
    as [_ [[H1 H2] _]].
  split; [apply H1 | apply H2]; vm_compute; reflexivity.
Defined.

(** C5 fails as stated: on its second run [createAnimationTimer] is
    refused the installation of the tick method, says so, and still
    returns the timer. *)
Lemma timer_survives_refused_installation :
  let o1 := run Cocoa.answer (createAnimationTimer 42 0.5) Cocoa.boot in
  let o2 := run Cocoa.answer (createAnimationTimer 42 0.5) (final o1) in
  existsb install_refused (trace o2) = true
  /\ In (Some method_not_added) (map diag_of (trace o2))
  /\ result o2 = Cocoa.a_timer /\ Cocoa.a_timer <> NULL.
Proof.
  vm_compute. repeat split; [tauto | discriminate].
Qed.

(** ** The interval of the animation timer *)

Lemma SFcompare_antisym (a b : spec_float) :
  SFcompare b a = match SFcompare a b with
                  | Some c => Some (CompOpp c)
                  | None => None
                  end.
Proof.
  destruct a as [sa | sa | | sa ma ea], b as [sb | sb | | sb mb eb]; cbn;
    try reflexivity;
    try (destruct sa; reflexivity); try (destruct sb; reflexivity);
    try (destruct sa, sb; reflexivity).
  destruct sa, sb; try reflexivity;
    rewrite (Z.compare_antisym ea eb); destruct (ea ?= eb)%Z; cbn;
    try reflexivity;
    rewrite (Pos.compare_cont_antisym ma mb Eq); cbn;
    destruct (Pos.compare_cont Eq ma mb); reflexivity.
Qed.

Lemma float_lt_not_ge (x y : float) :
  (x <? y)%float = true -> (y <=? x)%float = false.
Proof.
  rewrite ltb_spec, leb_spec. unfold SFltb, SFleb.
  rewrite (SFcompare_antisym (Prim2SF x) (Prim2SF y)).
  destruct (SFcompare (Prim2SF x) (Prim2SF y)) as [[| |] |]; cbn;
    intro H; try discriminate H; reflexivity.
Qed.

Lemma float_le_not_gt (x y : float) :
  (x <=? y)%float = true -> (y <? x)%float = false.
Proof.
  rewrite ltb_spec, leb_spec. unfold SFltb, SFleb.
  rewrite (SFcompare_antisym (Prim2SF x) (Prim2SF y)).
  destruct (SFcompare (Prim2SF x) (Prim2SF y)) as [[| |] |]; cbn;
    intro H; try discriminate H; reflexivity.
Qed.

(** C6 (as amended).  An interval that compares at most 0 or above 1 is
    rejected whatever the token: null is returned and the only calls made
    are the diagnostic and its flush, so no class is looked up or
    registered and no timer is created.  With a token that is not zero
    and an interval in (0, 1], the call returns the timer the runtime
    scheduled with that interval provided that no step fails; a class or
    selector that is missing, or an object that cannot be created, makes
    it return null.  Whenever the call returns a handle, the token is not
    zero and the interval passed the test; whenever it returns null, it
    ends with its diagnostic. *)
Theorem createAnimationTimer_interval
  (S : Type) (h : handler S) (s : S) (window_ptr : Z) (interval : float) :
  let o := run h (createAnimationTimer window_ptr interval) s in
  ((interval <=? 0)%float = true \/ (1 <? interval)%float = true ->
   result o = NULL /\ forallb is_stderr (trace o) = true
   /\ diagnosed_by "[createAnimationTimer]" (trace o) = true)
  /\ (window_ptr <> 0 ->
      (0 <? interval)%float = true -> (interval <=? 1)%float = true ->
      no_failed_step (trace o) = true ->
      result o <> NULL
      /\ exists cls sel target tickSel userInfo,
           In (Ev (objc_msgSend RetId cls sel
                     [ArgDouble interval; ArgId target; ArgSel tickSel;
                      ArgId userInfo; ArgBool true]) (result o)) (trace o))
  /\ (result o <> NULL ->
      window_ptr <> 0 /\ (interval <=? 0)%float = false
      /\ (1 <? interval)%float = false)
  /\ (no_failed_step (trace o) = false -> result o = NULL)
  /\ (result o = NULL -> diagnosed_by "[createAnimationTimer]" (trace o) = true).
Proof.
  by_paths.
  walk ltac:(split; [| split; [| split; [| split]]];
    [ let H := fresh "H" in
      intro H;
      first [ repeat split; reflexivity
            | exfalso; tests; destruct H; congruence ]
    | let Hw := fresh "Hw" in
      let Hlo := fresh "Hlo" in
      let Hhi := fresh "Hhi" in
      let Hok := fresh "Hok" in
      intros Hw Hlo Hhi Hok;
      first [ absurd_failure Hok
            | exfalso; apply float_lt_not_ge in Hlo;
              apply float_le_not_gt in Hhi; tests; congruence
            | split; [tests; assumption | do 5 eexists; in_trace] ]
    | let H := fresh "H" in
      intro H;
      first [ exfalso; apply H; reflexivity
            | tests; repeat split; assumption ]
    | let H := fresh "H" in
      intro H;
      first [ reflexivity
            | exfalso; unfold no_failed_step in H; eval_in H; discriminate H ]
    | let H := fresh "H" in
      intro H;
      first [ reflexivity | exfalso; tests; congruence ] ]).
Qed.

Lemma createAnimationTimer_interval_witness :
  (let o := run Cocoa.answer (createAnimationTimer 7 1.5) Cocoa.boot in
   result o = NULL /\ forallb is_stderr (trace o) = true
   /\ diagnosed_by "[createAnimationTimer]" (trace o) = true)
  /\ (let o := run Cocoa.answer (createAnimationTimer 42 0.5) Cocoa.boot in
      result o <> NULL
      /\ exists cls sel target tickSel userInfo,
           In (Ev (objc_msgSend RetId cls sel
                     [ArgDouble 0.5; ArgId target; ArgSel tickSel;
                      ArgId userInfo; ArgBool true]) (result o)) (trace o)).
Proof.
  split.
  - apply (createAnimationTimer_interval _ Cocoa.answer Cocoa.boot 7 1.5).
    right. reflexivity.
  - apply (createAnimationTimer_interval _ Cocoa.answer Cocoa.boot 42 0.5);
      [ discriminate | reflexivity | reflexivity | vm_compute; reflexivity ].
Defined.

(** C6 fails as stated: with token 7 and interval 0.5, inside the range,
    a process in which the [NSTimer] class is not loaded gets null, after
    the timer target class has been registered.  Besides, an interval
    that is not a number lies outside the range and is not rejected. *)
Lemma timer_in_range_returns_null :
  (0 <? 0.5)%float = true /\ (0.5 <=? 1)%float = true
  /\ (let o := run Cocoa.answer (createAnimationTimer 7 0.5)
                 Cocoa.without_NSTimer in
      result o = NULL /\ registrations (trace o) = 1%nat)
  /\ (0 <? nan)%float = false
  /\ (let o := run Cocoa.answer (createAnimationTimer 7 nan) Cocoa.boot in
      result o = Cocoa.a_timer /\ registrations (trace o) = 1%nat).
Proof.
  vm_compute. repeat split.
Qed.

(** * Further properties *)

#[local] Hint Unfold createNSImageFromCGImage : progs.


(** Replaces the answers of calls that return nothing by [tt]. *)
Ltac units :=
  repeat match goal with
  | u : ret_type RetVoid |- _ => destruct u
  | u : unit |- _ => destruct u
  end.

(** X2.  The whole exchange of the image helper when the source is not
    null and no step fails: a bitmap representation is allocated and
    initialised with the source, an image is allocated with the same
    [alloc] selector and initialised with the size made of the width and
    the height, the representation is added to the image, the creation is
    reported, and the initialised image is returned. *)
Theorem image_helper_exchange
  (S : Type) (h : handler S) (s : S) (cgImage : ptr) (w ht : float) :
  let o := run h (createNSImageFromCGImage cgImage w ht) s in
  cgImage <> NULL -> no_failed_step (trace o) = true ->
  exists repClass allocSel bitmapRep initWithCGImageSel initializedBitmapRep
         imageClass nsImage initWithSizeSel initializedImage
         addRepresentationSel,
    result o = initializedImage /\ initializedImage <> NULL
    /\ trace o
       = [ Ev (objc_getClass "NSBitmapImageRep") repClass;
           Ev (sel_registerName "alloc") allocSel;
           Ev (objc_msgSend RetId repClass allocSel []) bitmapRep;
           Ev (sel_registerName "initWithCGImage:") initWithCGImageSel;
           Ev (objc_msgSend RetId bitmapRep initWithCGImageSel [ArgId cgImage])
              initializedBitmapRep;
           Ev (objc_getClass "NSImage") imageClass;
           Ev (objc_msgSend RetId imageClass allocSel []) nsImage;
           Ev (sel_registerName "initWithSize:") initWithSizeSel;
           Ev (objc_msgSend RetId nsImage initWithSizeSel
                 [ArgDouble w; ArgDouble ht]) initializedImage;
           Ev (sel_registerName "addRepresentation:") addRepresentationSel;
           Ev (objc_msgSend RetVoid initializedImage addRepresentationSel
                 [ArgId initializedBitmapRep]) tt;
           Ev (fprintf_stderr
                 "[createNSImageFromCGImage] Created NSImage at: %p\n"
                 [FmtPtr initializedImage]) tt;
           Ev fflush_stderr tt ].
Proof.
  by_paths.
  walk ltac:(first
    [ match goal with H : no_failed_step _ = true |- _ => absurd_failure H end
    | exfalso; tests; congruence
    | tests; units; do 10 eexists;
      (split; [| split; [| reflexivity]]); [reflexivity | assumption] ]).
Qed.

Lemma run_after_first (S : Type) (h : handler S) (s : S) (A : Type)
  (e : Ext A) (R : Type) (k : A -> prog R) (Q : list event -> R -> Prop) :
  always (k (fst (h A e s))) (fun tr r => Q (Ev e (fst (h A e s)) :: tr) r) ->
  Q (trace (run h (Vis e k) s)) (result (run h (Vis e k) s)).
Proof.
  intro H. cbn. destruct (h A e s) as [a s']. cbn in *.
  apply (always_run _ (k a) (fun tr r => Q (Ev e a :: tr) r)). exact H.
Qed.

(** Runs the pure tests that precede the first call of a shim, closing
    the branches that the hypotheses exclude, and hands the first call to
    [run_after_first]. *)
Ltac to_first_call :=
  repeat match goal with
  | |- context [run ?h (if ?c then _ else _) ?s] =>
      destruct c eqn:?;
      [ exfalso; unfold valid_handle in *; tests; lia |]
  end;
  cbv zeta;
  match goal with
  | |- context [run ?h (Vis ?e ?k) ?s] =>
      pattern (trace (run h (Vis e k) s)), (result (run h (Vis e k) s));
      apply run_after_first
  end.

Ltac forwards_leaf :=
  unfold forwards, sends; cbn;
  first [ left; reflexivity | right; reflexivity ].

Ltac rect_forwards_leaf :=
  first
    [ exists empty_rect; split;
      [ forwards_leaf
      | let H := fresh "H" in
        intro H; exfalso; apply H; reflexivity ]
    | eexists; split;
      [ unfold forwards, sends; cbn; right; reflexivity
      | intros _; split;
        [ in_trace
        | unfold acceptable_dimensions; tests; repeat split; assumption ] ] ].

(** X3.  Every gateway shim makes at most one foreign call, on the
    receiver and selector it was given and with the arguments it was
    given, and returns what that call answered.  The rectangle the two
    rectangle shims pass by value is the one they read at [rect_ptr], and
    it is passed only if none of the four tests on its dimensions fires
    (and, for the four-argument shim, only if both scalars fit in 32
    bits). *)
Theorem gateway_forwards
  (S : Type) (h : handler S) (s : S) (receiver selector p : ptr) (n m : Z)
  (f : bool) :
  forwards RetId receiver selector [ArgCString p]
    (run h (objc_msgSend_wrapper_string receiver selector p) s)
  /\ forwards RetId receiver selector []
       (run h (objc_msgSend_wrapper receiver selector) s)
  /\ forwards RetVoid receiver selector [ArgId p]
       (run h (objc_msgSend_void_1 receiver selector p) s)
  /\ forwards RetVoid receiver selector []
       (run h (objc_msgSend_void_0 receiver selector) s)
  /\ forwards RetVoid receiver selector [ArgBool f]
       (run h (objc_msgSend_void_1_bool receiver selector f) s)
  /\ forwards RetId receiver selector [ArgULong n]
       (run h (objc_msgSend_wrapper_1_uint receiver selector n) s)
  /\ forwards RetNSRect receiver selector []
       (run h (objc_msgSend_returns_NSRect receiver selector) s)
  /\ (let o := run h (objc_msgSend_wrapper_rect receiver selector p) s in
      exists rect,
        forwards RetId receiver selector [ArgRect rect] o
        /\ (sends (trace o) <> [] ->
            In (Ev (load_rect p) rect) (trace o)
            /\ acceptable_dimensions rect))
  /\ (let o := run h (objc_msgSend_wrapper_4 receiver selector p n m f) s in
      exists rect,
        forwards RetId receiver selector
          [ArgRect rect; ArgULong n; ArgULong m; ArgBool f] o
        /\ (sends (trace o) <> [] ->
            In (Ev (load_rect p) rect) (trace o)
            /\ acceptable_dimensions rect /\ n <= 0xFFFFFFFF
            /\ m <= 0xFFFFFFFF)).
Proof.
  cbv zeta. unfold forwards. cbn [ret_type].
  repeat match goal with |- _ /\ _ => split end;
    try (by_paths; walk ltac:(units; forwards_leaf)).
  - by_paths. walk ltac:(units; rect_forwards_leaf).
  - by_paths.
    walk ltac:(units; first
      [ exists empty_rect; split;
        [ forwards_leaf
        | let H := fresh "H" in
          intro H; exfalso; apply H; reflexivity ]
      | eexists; split;
        [ unfold forwards, sends; cbn; right; reflexivity
        | intros _; split;
          [ in_trace
          | split;
            [ unfold acceptable_dimensions; tests; repeat split; assumption
            | tests; lia ] ] ] ]).
Qed.

(** Closes a leaf that the hypotheses on the arguments exclude, or gives
    the answer of the foreign call as the witness. *)
Ltac accepted_leaf :=
  units;
  first [ exfalso; unfold valid_handle, acceptable_dimensions in *; tests;
          first [ lia | congruence | intuition congruence ]
        | eexists; split; reflexivity ].

(** X4.  A call that passes the tests goes through untouched: with a
    receiver that is not null, at or above [0x1000] and a multiple of 8,
    and a selector that is not null, each shim other than the no-argument
    one returning a handle makes exactly the foreign call and writes
    nothing.  The string need only be at or above
    [0x1000]; the handle argument may be null; the index is not bounded;
    the rectangle must be read through a valid pointer and pass the four
    tests, the bounds 0 and 16384 included. *)
Theorem gateway_accepts_valid_calls
  (S : Type) (h : handler S) (s : S) (receiver selector p : ptr) (n m : Z)
  (f : bool) :
  valid_handle receiver -> selector <> NULL ->
  (0x1000 <= p ->
   let o := run h (objc_msgSend_wrapper_string receiver selector p) s in
   exists a,
     trace o = [Ev (objc_msgSend RetId receiver selector [ArgCString p]) a]
     /\ result o = a)
  /\ (p = NULL \/ valid_handle p ->
      let o := run h (objc_msgSend_void_1 receiver selector p) s in
      exists a,
        trace o = [Ev (objc_msgSend RetVoid receiver selector [ArgId p]) a]
        /\ result o = a)
  /\ (let o := run h (objc_msgSend_void_0 receiver selector) s in
      exists a,
        trace o = [Ev (objc_msgSend RetVoid receiver selector []) a]
        /\ result o = a)
  /\ (let o := run h (objc_msgSend_void_1_bool receiver selector f) s in
      exists a,
        trace o = [Ev (objc_msgSend RetVoid receiver selector [ArgBool f]) a]
        /\ result o = a)
  /\ (let o := run h (objc_msgSend_wrapper_1_uint receiver selector n) s in
      exists a,
        trace o = [Ev (objc_msgSend RetId receiver selector [ArgULong n]) a]
        /\ result o = a)
  /\ (let o := run h (objc_msgSend_returns_NSRect receiver selector) s in
      exists a,
        trace o = [Ev (objc_msgSend RetNSRect receiver selector []) a]
        /\ result o = a)
  /\ (valid_handle p ->
      let rect := fst (h NSRect (load_rect p) s) in
      acceptable_dimensions rect ->
      (let o := run h (objc_msgSend_wrapper_rect receiver selector p) s in
       exists a,
         trace o = [Ev (load_rect p) rect;
                    Ev (objc_msgSend RetId receiver selector [ArgRect rect]) a]
         /\ result o = a)
      /\ (n <= 0xFFFFFFFF -> m <= 0xFFFFFFFF ->
          let o := run h (objc_msgSend_wrapper_4 receiver selector p n m f)
                     s in
          exists a,
            trace o = [Ev (load_rect p) rect;
                       Ev (objc_msgSend RetId receiver selector
                             [ArgRect rect; ArgULong n; ArgULong m; ArgBool f])
                          a]
            /\ result o = a)).
Proof.
  intros Hr Hs. cbv zeta.
  repeat match goal with |- _ /\ _ => split end;
    try (intros; by_paths; walk accepted_leaf).
  intros Hp Hrect. split; [| intros Hn Hm].
  - unfold objc_msgSend_wrapper_rect. to_first_call. walk accepted_leaf.
  - unfold objc_msgSend_wrapper_4. to_first_call. walk accepted_leaf.
Qed.

(** X5.  With a valid receiver and a selector that is not null, the
    no-argument shim returning a handle reads one word at the receiver
    (the ISA pointer), prints the receiver and that word, and then makes
    the foreign call exactly when the word is not null, at or above
    [0x1000], a multiple of 8 and at most [0x7fffffffffff]; otherwise it
    returns null without a further call. *)
Theorem wrapper_isa_gate
  (S : Type) (h : handler S) (s : S) (receiver selector : ptr) :
  valid_handle receiver -> selector <> NULL ->
  let isa := fst (h ptr (load_ptr receiver) s) in
  let o := run h (objc_msgSend_wrapper receiver selector) s in
  exists rest,
    trace o
    = Ev (load_ptr receiver) isa
      :: Ev (fprintf_stderr "[objc_wrapper] receiver: %p, ISA pointer: %p\n"
               [FmtPtr receiver; FmtPtr isa]) tt
      :: Ev fflush_stderr tt :: rest
    /\ (valid_handle isa /\ isa <= 0x7fffffffffff ->
        rest = [Ev (objc_msgSend RetId receiver selector []) (result o)])
    /\ (~ (valid_handle isa /\ isa <= 0x7fffffffffff) ->
        rest = [] /\ result o = NULL).
Proof.
  intros Hr Hs. cbv zeta.
  unfold objc_msgSend_wrapper. to_first_call.
  walk ltac:(units; eexists; split; [reflexivity |];
    split;
    let H := fresh "H" in
    intro H;
    first [ reflexivity
          | split; reflexivity
          | exfalso; unfold valid_handle in *; tests; lia
          | exfalso; apply H; unfold valid_handle; tests;
            repeat split; first [assumption | lia] ]).
Qed.

(** ** Further properties of the callbacks *)

Ltac complains_leaf :=
  split; [cbn; lia | split];
  let H := fresh "H" in
  intro H;
  first [ reflexivity
        | exfalso; apply H; reflexivity
        | exfalso; unfold routes in H; cbn in H; discriminate H ].

(** X6.  Each of the ten event callbacks either routes or complains: it
    makes at most one routing call; when it makes none it ends with its
    own diagnostic; when it makes one it writes nothing. *)
Theorem callbacks_route_or_complain :
  routes_or_complains "[windowDidResizeImpl]" windowDidResizeImpl
  /\ routes_or_complains "[windowDidBecomeKeyImpl]" windowDidBecomeKeyImpl
  /\ routes_or_complains "[windowDidResignKeyImpl]" windowDidResignKeyImpl
  /\ routes_or_complains "[tahoeTimerTickImpl]" tahoeTimerTickImpl
  /\ routes_or_complains "[tahoeViewMouseDownImpl]" tahoeViewMouseDownImpl
  /\ routes_or_complains "[tahoeViewMouseUpImpl]" tahoeViewMouseUpImpl
  /\ routes_or_complains "[tahoeViewMouseDraggedImpl]" tahoeViewMouseDraggedImpl
  /\ routes_or_complains "[tahoeViewMouseMovedImpl]" tahoeViewMouseMovedImpl
  /\ routes_or_complains "[tahoeViewKeyDownImpl]" tahoeViewKeyDownImpl
  /\ routes_or_complains "[tahoeViewKeyUpImpl]" tahoeViewKeyUpImpl.
Proof.
  repeat match goal with |- _ /\ _ => split end;
    intros S h s self _cmd arg; by_paths; walk complains_leaf.
Qed.

Ltac focus_leaf :=
  match goal with
  | Hq : token_query _ _ = Some _ |- _ =>
      cbn in Hq; rewrite ?Z.eqb_refl in Hq; cbn in Hq;
      first [ discriminate Hq
            | inversion Hq; subst; units;
              first [ reflexivity | exfalso; tests; congruence ] ]
  end.

(** X7.  The focus callbacks never look at the notification: on an
    instance whose store holds a token, whatever the notification (null
    included), the callback reads the token and routes one focus event,
    of kind 0 when the window became key and of kind 1 when it resigned,
    and does nothing else. *)
Theorem focus_callbacks_exchange :
  routes_focus 0 windowDidBecomeKeyImpl /\ routes_focus 1 windowDidResignKeyImpl.
Proof.
  split; intros S h s self _cmd notification token; by_paths;
    walk ltac:(idtac; focus_leaf).
Qed.

Ltac exchange_leaf :=
  first
    [ match goal with H : no_failed_step _ = true |- _ => absurd_failure H end
    | exfalso; tests; congruence
    | tests; units; do 7 eexists; (split; [| reflexivity]); assumption
    | tests; units; do 5 eexists; (split; [| reflexivity]); assumption ].

(** X8.  The whole exchange of the pointer callbacks when no step fails:
    the token is read from the store, the native event is asked for its
    location in the window, its button ordinal and its modifier flags, in
    that order, and one pointer event is routed with that location and
    the flags converted to 32 bits.  The move callback does not ask for
    the button. *)
Theorem pointer_callbacks_exchange :
  pointer_exchange 0 tahoeViewMouseDownImpl
  /\ pointer_exchange 1 tahoeViewMouseUpImpl
  /\ pointer_exchange 3 tahoeViewMouseDraggedImpl
  /\ move_exchange tahoeViewMouseMovedImpl.
Proof.
  split; [| split; [| split]]; intros S h s self _cmd event; by_paths.
  all: walk exchange_leaf.
Qed.



(** ** Further properties of the constructors *)

Ltac constructor_leaf :=
  split; [| split; [| split; [| split]]];
  [ let H := fresh "H" in
    intro H;
    first [ split; reflexivity | exfalso; tests; congruence ]
  | let H := fresh "H" in
    intro H;
    first [ reflexivity | exfalso; tests; congruence ]
  | let H := fresh "H" in
    intro H;
    first [ exfalso; apply H; reflexivity
          | tests; units; split; [assumption |];
            split; [in_trace |]; do 2 eexists; split; in_trace ]
  | let H := fresh "H" in
    intro H;
    first [ reflexivity
          | exfalso; unfold no_failed_step in H; eval_in H; discriminate H ]
  | let Hw := fresh "Hw" in
    let Hok := fresh "Hok" in
    let Hin := fresh "Hin" in
    intros Hw Hok Hin;
    first [ absurd_failure Hok
          | exfalso; eval_in Hin; discriminate Hin
          | exfalso; tests; congruence
          | tests; assumption ] ].

Lemma createWindowDelegate_result
  (S : Type) (h : handler S) (s : S) (window_ptr : Z) :
  let o := run h (createWindowDelegate window_ptr) s in
  (window_ptr = 0 ->
   result o = NULL /\ forallb is_stderr (trace o) = true)
  /\ (result o = NULL ->
      diagnosed_by "[createWindowDelegate]" (trace o) = true)
  /\ (result o <> NULL ->
      window_ptr <> 0
      /\ In (Ev (objc_setAssociatedObject (result o) "windowPtr" window_ptr
                   OBJC_ASSOCIATION_ASSIGN) tt) (trace o)
      /\ exists instance initSel,
           In (Ev (sel_registerName "init") initSel) (trace o)
           /\ In (Ev (objc_msgSend RetId instance initSel []) (result o))
                (trace o))
  /\ (no_failed_step (trace o) = false -> result o = NULL)
  /\ (window_ptr <> 0 -> no_failed_step (trace o) = true ->
      existsb install_refused (trace o) = false -> result o <> NULL).
Proof.
  by_paths. walk constructor_leaf.
Qed.

Lemma createTahoeView_result
  (S : Type) (h : handler S) (s : S) (window_ptr : Z) :
  let o := run h (createTahoeView window_ptr) s in
  (window_ptr = 0 ->
   result o = NULL /\ forallb is_stderr (trace o) = true)
  /\ (result o = NULL ->
      diagnosed_by "[createTahoeView]" (trace o) = true)
  /\ (result o <> NULL ->
      window_ptr <> 0
      /\ In (Ev (objc_setAssociatedObject (result o) "windowPtr" window_ptr
                   OBJC_ASSOCIATION_ASSIGN) tt) (trace o)
      /\ exists instance initSel,
           In (Ev (sel_registerName "init") initSel) (trace o)
           /\ In (Ev (objc_msgSend RetId instance initSel []) (result o))
                (trace o))
  /\ (no_failed_step (trace o) = false -> result o = NULL)
  /\ (window_ptr <> 0 -> no_failed_step (trace o) = true ->
      existsb install_refused (trace o) = false -> result o <> NULL).
Proof.
  by_paths. walk constructor_leaf.
Qed.

(** X10.  The constructors of the window delegate and of the input view
    reject a zero token before any runtime call, end every null return
    with their diagnostic, return null when a step fails, and return a
    handle when the token is not zero, no step fails and no installation
    is refused.  The handle they return is the
    initialised instance, and the token has been attached to it under the
    key ["windowPtr"], the key the callbacks read. *)
Theorem constructors_attach_token
  (S : Type) (h : handler S) (s : S) (window_ptr : Z) :
  (let o := run h (createWindowDelegate window_ptr) s in
   (window_ptr = 0 ->
    result o = NULL /\ forallb is_stderr (trace o) = true)
   /\ (result o = NULL ->
       diagnosed_by "[createWindowDelegate]" (trace o) = true)
   /\ (result o <> NULL ->
       window_ptr <> 0
       /\ In (Ev (objc_setAssociatedObject (result o) "windowPtr" window_ptr
                    OBJC_ASSOCIATION_ASSIGN) tt) (trace o)
       /\ exists instance initSel,
            In (Ev (sel_registerName "init") initSel) (trace o)
            /\ In (Ev (objc_msgSend RetId instance initSel []) (result o))
                 (trace o))
   /\ (no_failed_step (trace o) = false -> result o = NULL)
   /\ (window_ptr <> 0 -> no_failed_step (trace o) = true ->
       existsb install_refused (trace o) = false -> result o <> NULL))
  /\ (let o := run h (createTahoeView window_ptr) s in
      (window_ptr = 0 ->
       result o = NULL /\ forallb is_stderr (trace o) = true)
      /\ (result o = NULL ->
          diagnosed_by "[createTahoeView]" (trace o) = true)
      /\ (result o <> NULL ->
          window_ptr <> 0
          /\ In (Ev (objc_setAssociatedObject (result o) "windowPtr"
                       window_ptr OBJC_ASSOCIATION_ASSIGN) tt) (trace o)
          /\ exists instance initSel,
               In (Ev (sel_registerName "init") initSel) (trace o)
               /\ In (Ev (objc_msgSend RetId instance initSel []) (result o))
                    (trace o))
      /\ (no_failed_step (trace o) = false -> result o = NULL)
      /\ (window_ptr <> 0 -> no_failed_step (trace o) = true ->
          existsb install_refused (trace o) = false -> result o <> NULL)).
Proof.
  split.
  - apply createWindowDelegate_result.
  - apply createTahoeView_result.
Qed.

(** X11.  A timer returned by [createAnimationTimer] is wired as follows:
    the target is an initialised instance of the timer target class, the
    selector given to the timer is the one resolved for
    ["tahoeTimerTick:"], whose installation on that class was attempted
    with the tick trampoline, [userInfo] is the number made from the
    token, the token is also attached to the target, and the timer was
    scheduled on [NSTimer] with the interval, repeating. *)
Theorem timer_wiring
  (S : Type) (h : handler S) (s : S) (window_ptr : Z) (interval : float) :
  let o := run h (createAnimationTimer window_ptr interval) s in
  result o <> NULL ->
  exists targetClass allocSel raw initSel target tickSel added
         numberClass numberSel userInfo timerClass scheduleSel,
    In (Ev (sel_registerName "alloc") allocSel) (trace o)
    /\ In (Ev (sel_registerName "init") initSel) (trace o)
    /\ In (Ev (sel_registerName "tahoeTimerTick:") tickSel) (trace o)
    /\ In (Ev (class_addMethod targetClass tickSel IMP_tahoeTimerTick "v@:@")
             added) (trace o)
    /\ In (Ev (objc_msgSend RetId targetClass allocSel []) raw) (trace o)
    /\ In (Ev (objc_msgSend RetId raw initSel []) target) (trace o)
    /\ In (Ev (objc_setAssociatedObject target "windowPtr" window_ptr
                 OBJC_ASSOCIATION_ASSIGN) tt) (trace o)
    /\ In (Ev (objc_getClass "NSNumber") numberClass) (trace o)
    /\ In (Ev (sel_registerName "numberWithUnsignedLongLong:") numberSel)
         (trace o)
    /\ In (Ev (objc_msgSend RetId numberClass numberSel
                 [ArgULongLong window_ptr]) userInfo) (trace o)
    /\ In (Ev (objc_getClass "NSTimer") timerClass) (trace o)
    /\ In (Ev (sel_registerName
                 "scheduledTimerWithTimeInterval:target:selector:userInfo:repeats:")
             scheduleSel) (trace o)
    /\ In (Ev (objc_msgSend RetId timerClass scheduleSel
                 [ArgDouble interval; ArgId target; ArgSel tickSel;
                  ArgId userInfo; ArgBool true]) (result o)) (trace o).
Proof.
  by_paths.
  walk ltac:(first
    [ exfalso; match goal with H : _ <> NULL |- _ => apply H; reflexivity end
    | units; do 12 eexists;
      repeat match goal with |- _ /\ _ => split end; in_trace ]).
Qed.



(** ** Witnesses *)


Lemma image_helper_exchange_witness :
  let o := run Cocoa.answer (createNSImageFromCGImage a_cgimage 64 32) studio in
  exists repClass allocSel bitmapRep initWithCGImageSel initializedBitmapRep
         imageClass nsImage initWithSizeSel initializedImage
         addRepresentationSel,
    result o = initializedImage /\ initializedImage <> NULL
    /\ trace o
       = [ Ev (objc_getClass "NSBitmapImageRep") repClass;
           Ev (sel_registerName "alloc") allocSel;
           Ev (objc_msgSend RetId repClass allocSel []) bitmapRep;
           Ev (sel_registerName "initWithCGImage:") initWithCGImageSel;
           Ev (objc_msgSend RetId bitmapRep initWithCGImageSel
                 [ArgId a_cgimage]) initializedBitmapRep;
           Ev (objc_getClass "NSImage") imageClass;
           Ev (objc_msgSend RetId imageClass allocSel []) nsImage;
           Ev (sel_registerName "initWithSize:") initWithSizeSel;
           Ev (objc_msgSend RetId nsImage initWithSizeSel
                 [ArgDouble 64; ArgDouble 32]) initializedImage;
           Ev (sel_registerName "addRepresentation:") addRepresentationSel;
           Ev (objc_msgSend RetVoid initializedImage addRepresentationSel
                 [ArgId initializedBitmapRep]) tt;
           Ev (fprintf_stderr
                 "[createNSImageFromCGImage] Created NSImage at: %p\n"
                 [FmtPtr initializedImage]) tt;
           Ev fflush_stderr tt ].
Proof.
  apply (image_helper_exchange _ Cocoa.answer studio a_cgimage 64 32);
    [ vm_compute; discriminate | vm_compute; reflexivity ].
Defined.

Lemma gateway_forwards_witness :
  let o := run Cocoa.answer
             (objc_msgSend_wrapper_rect Cocoa.a_view 0x5000 Cocoa.a_rect)
             Cocoa.boot in
  exists rect,
    In (Ev (load_rect Cocoa.a_rect) rect) (trace o)
    /\ acceptable_dimensions rect.
Proof.
  destruct (gateway_forwards _ Cocoa.answer Cocoa.boot Cocoa.a_view 0x5000
              Cocoa.a_rect 0 0 true)
    as (_ & _ & _ & _ & _ & _ & _ & (rect & _ & H) & _).
  exists rect. apply H. vm_compute. discriminate.
Defined.

Lemma gateway_accepts_valid_calls_witness :
  let o := run Cocoa.answer
             (objc_msgSend_wrapper_4 Cocoa.a_view 0x5000 Cocoa.a_rect
                0xFFFFFFFF 2 false) studio in
  exists a,
    trace o
    = [ Ev (load_rect Cocoa.a_rect) (Cocoa.rect_of 16384 0);
        Ev (objc_msgSend RetId Cocoa.a_view 0x5000
              [ArgRect (Cocoa.rect_of 16384 0); ArgULong 0xFFFFFFFF;
               ArgULong 2; ArgBool false]) a ]
    /\ result o = a.
Proof.
  destruct (gateway_accepts_valid_calls _ Cocoa.answer studio Cocoa.a_view
              0x5000 Cocoa.a_rect 0xFFFFFFFF 2 false)
    as (_ & _ & _ & _ & _ & _ & H).
  - vm_compute. repeat split; discriminate.
  - discriminate.
  - apply H.
    + vm_compute. repeat split; discriminate.
    + vm_compute. repeat split.
    + vm_compute. discriminate.
    + vm_compute. discriminate.
Defined.

Lemma wrapper_isa_gate_witness :
  let o := run Cocoa.answer (objc_msgSend_wrapper Cocoa.a_view 0x5000)
             Cocoa.boot in
  exists rest,
    trace o
    = Ev (load_ptr Cocoa.a_view) 0x10000
      :: Ev (fprintf_stderr "[objc_wrapper] receiver: %p, ISA pointer: %p\n"
               [FmtPtr Cocoa.a_view; FmtPtr 0x10000]) tt
      :: Ev fflush_stderr tt :: rest
    /\ (valid_handle 0x10000 /\ 0x10000 <= 0x7fffffffffff ->
        rest = [Ev (objc_msgSend RetId Cocoa.a_view 0x5000 []) (result o)])
    /\ (~ (valid_handle 0x10000 /\ 0x10000 <= 0x7fffffffffff) ->
        rest = [] /\ result o = NULL).
Proof.
  apply (wrapper_isa_gate _ Cocoa.answer Cocoa.boot Cocoa.a_view 0x5000).
  - vm_compute. repeat split; discriminate.
  - discriminate.
Defined.

Lemma callbacks_route_or_complain_witness :
  let tr := trace (run Cocoa.answer
                     (tahoeViewKeyDownImpl Cocoa.a_view 0 Cocoa.a_event)
                     studio) in
  written tr = [].
Proof.
  destruct callbacks_route_or_complain
    as (_ & _ & _ & _ & _ & _ & _ & _ & H & _).
  apply (H _ Cocoa.answer studio Cocoa.a_view 0 Cocoa.a_event).
  vm_compute. discriminate.
Defined.

Lemma focus_callbacks_exchange_witness :
  trace (run Cocoa.answer (windowDidBecomeKeyImpl Cocoa.a_delegate 0 NULL)
           (Cocoa.with_token Cocoa.a_delegate 42))
  = [ Ev (objc_getAssociatedObject Cocoa.a_delegate "windowPtr") 42;
      Ev (routeFocusEvent 42 0) tt ].
Proof.
  destruct focus_callbacks_exchange as [H _].
  apply (H _ Cocoa.answer (Cocoa.with_token Cocoa.a_delegate 42)
           Cocoa.a_delegate 0 NULL 42);
    [ discriminate | discriminate | vm_compute; reflexivity ].
Defined.

Lemma pointer_callbacks_exchange_witness :
  let tr := trace (run Cocoa.answer
                     (tahoeViewMouseMovedImpl Cocoa.a_view 0 Cocoa.a_event)
                     (Cocoa.with_token Cocoa.a_view 42)) in
  exists token locationSel location modifierFlagsSel modifiers,
    token <> 0
    /\ tr = [ Ev (objc_getAssociatedObject Cocoa.a_view "windowPtr") token;
              Ev (sel_registerName "locationInWindow") locationSel;
              Ev (objc_msgSend RetNSPoint Cocoa.a_event locationSel [])
                 location;
              Ev (sel_registerName "modifierFlags") modifierFlagsSel;
              Ev (objc_msgSend RetNSUInteger Cocoa.a_event modifierFlagsSel [])
                 modifiers;
              Ev (routeMouseEvent token 2 0 (pt_x location) (pt_y location)
                    (to_uint32 modifiers)) tt ].
Proof.
  destruct pointer_callbacks_exchange as (_ & _ & _ & H).
  apply (H _ Cocoa.answer (Cocoa.with_token Cocoa.a_view 42)
           Cocoa.a_view 0 Cocoa.a_event);
    [ discriminate | discriminate | vm_compute; reflexivity ].
Defined.


(** A key press with key code 36 whose event carries no string of
    characters is routed with character 0; with the string "\r" it is
    routed with character 13. *)
Example key_scenarios :
  routes (trace (run Cocoa.answer
                   (tahoeViewKeyDownImpl Cocoa.a_view 0 Cocoa.a_event) studio))
  = [Ev (routeKeyboardEvent 42 0 36 0 0x20000) tt]
  /\ routes (trace (run Cocoa.answer
                      (tahoeViewKeyDownImpl Cocoa.a_view 0 Cocoa.a_event)
                      (Cocoa.with_token Cocoa.a_view 42)))
     = [Ev (routeKeyboardEvent 42 0 36 13 0x20000) tt].
Proof. vm_compute. split; reflexivity. Qed.

Lemma constructors_attach_token_witness :
  let o := run Cocoa.answer (createTahoeView 42) Cocoa.boot in
  42 <> 0
  /\ In (Ev (objc_setAssociatedObject (result o) "windowPtr" 42
               OBJC_ASSOCIATION_ASSIGN) tt) (trace o)
  /\ exists instance initSel,
       In (Ev (sel_registerName "init") initSel) (trace o)
       /\ In (Ev (objc_msgSend RetId instance initSel []) (result o))
            (trace o).
Proof.
  destruct (constructors_attach_token _ Cocoa.answer Cocoa.boot 42)
    as (_ & _ & _ & H & _).
  apply H. vm_compute. discriminate.
Defined.

Lemma timer_wiring_witness :
  let o := run Cocoa.answer (createAnimationTimer 42 0.5) Cocoa.boot in
  exists targetClass allocSel raw initSel target tickSel added
         numberClass numberSel userInfo timerClass scheduleSel,
    In (Ev (sel_registerName "alloc") allocSel) (trace o)
    /\ In (Ev (sel_registerName "init") initSel) (trace o)
    /\ In (Ev (sel_registerName "tahoeTimerTick:") tickSel) (trace o)
    /\ In (Ev (class_addMethod targetClass tickSel IMP_tahoeTimerTick "v@:@")
             added) (trace o)
    /\ In (Ev (objc_msgSend RetId targetClass allocSel []) raw) (trace o)
    /\ In (Ev (objc_msgSend RetId raw initSel []) target) (trace o)
    /\ In (Ev (objc_setAssociatedObject target "windowPtr" 42
                 OBJC_ASSOCIATION_ASSIGN) tt) (trace o)
    /\ In (Ev (objc_getClass "NSNumber") numberClass) (trace o)
    /\ In (Ev (sel_registerName "numberWithUnsignedLongLong:") numberSel)
         (trace o)
    /\ In (Ev (objc_msgSend RetId numberClass numberSel [ArgULongLong 42])
             userInfo) (trace o)
    /\ In (Ev (objc_getClass "NSTimer") timerClass) (trace o)
    /\ In (Ev (sel_registerName
                 "scheduledTimerWithTimeInterval:target:selector:userInfo:repeats:")
             scheduleSel) (trace o)
    /\ In (Ev (objc_msgSend RetId timerClass scheduleSel
                 [ArgDouble 0.5; ArgId target; ArgSel tickSel;
                  ArgId userInfo; ArgBool true]) (result o)) (trace o).
Proof.
  apply (timer_wiring _ Cocoa.answer Cocoa.boot 42 0.5).
  vm_compute. discriminate.
Defined.

